(** * audio_preprocessing.py: the filter-chain compiler and the batch driver

    A shallow embedding of [AudioPreprocessor] (src/audio_preprocessing.py).
    The configuration is the value [yaml.safe_load] returns.  The driver
    is followed on configurations proper: dictionaries keyed by strings
    whose leaves are YAML scalars.  The filter-chain compiler is followed
    on these and, in [Document], on a loaded document of any shape (null
    or scalar blocks, list and mapping values), where subscripting and
    hashing raise [TypeError].  The file system, the logger and the child
    process are an explicit world that the driver threads through; Python
    exceptions are the [Raise] results. *)

From Stdlib Require Import ZArith String Ascii List PrimFloat FloatOps SpecFloat Lia.
From stdpp Require Import base option list gmap strings pretty.

Open Scope string_scope.

(** ** Python values *)

Module Py.

(** The scalars a YAML document loads to. *)
Inductive scalar : Type :=
| PyNone
| PyBool (b : bool)
| PyInt (z : Z)
| PyFloat (f : float)
| PyStr (s : string).

(** The exceptions that can arise in the modelled code.  [KeyError] comes
    from subscripting a dict, [TypeError] from handing a non-string to
    [Path], [str.join] or [subprocess.run], from subscripting what is no
    dict and from hashing a list or a dict, [CalledProcessError] from
    [subprocess.run(..., check=True)] on a non-zero exit status, and
    [OSError] from a child process that could not be started. *)
Inductive exn : Type :=
| KeyError (key : string)
| TypeError (what : string)
| CalledProcessError (returncode : Z) (cmd : list string)
| OSError (errno : Z).

(** [issubclass(type(e), subprocess.SubprocessError)] *)
Definition is_SubprocessError (e : exn) : bool :=
  match e with
  | CalledProcessError _ _ => true
  | _ => false
  end.

Inductive result (A : Type) : Type :=
| Ret (a : A)
| Raise (e : exn).
Arguments Ret {A} a.
Arguments Raise {A} e.

Definition bind {A B} (m : result A) (k : A -> result B) : result B :=
  match m with
  | Ret a => k a
  | Raise e => Raise e
  end.

(** [bool(v)] *)
Definition truthy (v : scalar) : bool :=
  match v with
  | PyNone => false
  | PyBool b => b
  | PyInt z => negb (z =? 0)%Z
  | PyFloat f => negb (PrimFloat.eqb f 0%float)
  | PyStr s => negb (String.eqb s "")
  end.

(** Exact comparison of a float with an integer, as [float.__eq__] does it. *)
Definition float_eq_Z (f : float) (z : Z) : bool :=
  match Prim2SF f with
  | S754_zero _ => (z =? 0)%Z
  | S754_finite s m e =>
      let sign := if s then (-1)%Z else 1%Z in
      if (0 <=? e)%Z
      then (z =? sign * (Z.pos m * 2 ^ e))%Z
      else (z * 2 ^ (- e) =? sign * Z.pos m)%Z
  | _ => false
  end.

Definition int_of_bool (b : bool) : Z := if b then 1%Z else 0%Z.

(** [a == b] on scalars: [bool] is a subclass of [int], numbers compare
    by value, a string only equals the same string, [None] only [None]. *)
Definition equal (a b : scalar) : bool :=
  match a, b with
  | PyNone, PyNone => true
  | PyStr s, PyStr t => String.eqb s t
  | PyBool x, PyBool y => (int_of_bool x =? int_of_bool y)%Z
  | PyBool x, PyInt y => (int_of_bool x =? y)%Z
  | PyInt x, PyBool y => (x =? int_of_bool y)%Z
  | PyInt x, PyInt y => (x =? y)%Z
  | PyFloat x, PyFloat y => PrimFloat.eqb x y
  | PyFloat x, PyInt y => float_eq_Z x y
  | PyInt x, PyFloat y => float_eq_Z y x
  | PyFloat x, PyBool y => float_eq_Z x (int_of_bool y)
  | PyBool x, PyFloat y => float_eq_Z y (int_of_bool x)
  | _, _ => false
  end.

(** [d[k]] on a dict. *)
Definition getitem {V} (d : gmap string V) (k : string) : result V :=
  match d !! k with
  | Some v => Ret v
  | None => Raise (KeyError k)
  end.

(** [d.get(k, dflt)] on a dict with string keys: every scalar is
    hashable, and only a string can equal one of the keys. *)
Definition get {V} (d : gmap string V) (k : scalar) (dflt : V) : V :=
  match k with
  | PyStr s => default dflt (d !! s)
  | _ => dflt
  end.

(** [l.append(x)], as the list after the call. *)
Definition append {A} (l : list A) (x : A) : list A := (l ++ [x])%list.

(** [",".join(l)] *)
Definition join (sep : string) (l : list string) : string := String.concat sep l.

End Py.
Import Py.

#[export] Instance result_bind : MBind result := fun A B k m => Py.bind m k.
#[export] Instance result_ret : MRet result := fun A a => Ret a.

(** ** The configuration

    [self.config] has three top-level blocks.  [output] and [compression]
    map option names to scalars; [preprocessing] maps a stage name to such a
    block.  The blocks are dictionaries, so reading an option that the
    document does not set raises [KeyError].  A document whose blocks are
    no dictionaries, or whose values are lists or mappings, is a
    [Document.value] below. *)

Record config : Type := Config {
  output : gmap string scalar;
  compression : gmap string scalar;
  preprocessing : gmap string (gmap string scalar)
}.

(** [self.config["preprocessing"][stage][key]] *)
Definition stage_option (cfg : config) (stage key : string) : result scalar :=
  (s ← getitem (preprocessing cfg) stage ; getitem s key).

Section Compiler.

(** [repr] of a float (the shortest decimal string that reads back as the
    same double) is left abstract. *)
Context (float_repr : float -> string).

(** [str(v)], which is what an f-string field [{v}] renders. *)
Definition py_str (v : scalar) : string :=
  match v with
  | PyNone => "None"
  | PyBool true => "True"
  | PyBool false => "False"
  | PyInt z => pretty z
  | PyFloat f => float_repr f
  | PyStr s => s
  end.

Definition strength_map : gmap string string :=
  <["low" := "0.2"]> (<["medium" := "0.4"]> (<["high" := "0.6"]> ∅)).

(** [_build_filter_chain]: [filters] is the list the method appends to. *)
Definition _build_filter_chain (cfg : config) : result string :=
  (let filters : list string := [] in
   (* Noise reduction *)
   en ← stage_option cfg "noise_reduction" "enabled";
   filters ←
     (if truthy en then
        strength ← stage_option cfg "noise_reduction" "strength";
        let noise_strength := Py.get strength_map strength "0.4" in
        Ret (append filters ("afftdn=nr=" ++ noise_strength ++ ":nf=-25"))
      else Ret filters);
   (* Normalization *)
   en ← stage_option cfg "normalization" "enabled";
   filters ←
     (if truthy en then
        target_level ← stage_option cfg "normalization" "target_level";
        true_peak ← stage_option cfg "normalization" "true_peak";
        Ret (append filters ("loudnorm=I=" ++ py_str target_level ++ ":TP="
                               ++ py_str true_peak ++ ":LRA=7"))
      else Ret filters);
   (* Dynamic range compression *)
   en ← stage_option cfg "compression" "enabled";
   filters ←
     (if truthy en then
        threshold ← stage_option cfg "compression" "threshold";
        ratio ← stage_option cfg "compression" "ratio";
        attack ← stage_option cfg "compression" "attack";
        release ← stage_option cfg "compression" "release";
        Ret (append filters ("acompressor=threshold=" ++ py_str threshold
                               ++ "dB:ratio=" ++ py_str ratio
                               ++ ":attack=" ++ py_str attack
                               ++ ":release=" ++ py_str release))
      else Ret filters);
   (* Equalization *)
   en ← stage_option cfg "eq" "enabled";
   filters ←
     (if truthy en then
        preset ← stage_option cfg "eq" "preset";
        if Py.equal preset (PyStr "speech") then
          let filters := append filters "equalizer=f=100:width_type=h:width=200:g=-3" in
          let filters := append filters "equalizer=f=300:width_type=h:width=200:g=2" in
          let filters := append filters "equalizer=f=1500:width_type=h:width=1000:g=3" in
          let filters := append filters "equalizer=f=4000:width_type=h:width=1000:g=1" in
          let filters := append filters "equalizer=f=8000:width_type=h:width=2000:g=-2" in
          Ret filters
        else if Py.equal preset (PyStr "music") then
          let filters := append filters "equalizer=f=60:width_type=h:width=100:g=1" in
          let filters := append filters "equalizer=f=300:width_type=h:width=200:g=0" in
          let filters := append filters "equalizer=f=1500:width_type=h:width=1000:g=1" in
          let filters := append filters "equalizer=f=6000:width_type=h:width=2000:g=2" in
          Ret filters
        else Ret filters
      else Ret filters);
   (* Join all filters with commas *)
   match filters with
   | [] => Ret ""
   | _ => Ret (Py.join "," filters)
   end).

End Compiler.

(** The configuration [load_config] falls back to. *)
Definition default_config : config := {|
  output := <["format" := PyStr "wav"]> (<["directory" := PyStr "processed_audio"]>
            (<["suffix" := PyStr "_processed"]> ∅));
  compression := <["enabled" := PyBool true]> (<["format" := PyStr "m4a"]>
                 (<["codec" := PyStr "aac"]> (<["bitrate" := PyStr "128k"]> ∅)));
  preprocessing :=
    <["noise_reduction" := <["enabled" := PyBool true]> (<["strength" := PyStr "medium"]> ∅)]>
    (<["normalization" := <["enabled" := PyBool true]> (<["target_level" := PyInt (-16)]>
                          (<["true_peak" := PyFloat (-1.5)%float]> ∅))]>
    (<["compression" := <["enabled" := PyBool false]> (<["threshold" := PyInt (-20)]>
                        (<["ratio" := PyInt 4]> (<["attack" := PyInt 5]>
                        (<["release" := PyInt 50]> ∅))))]>
    (<["eq" := <["enabled" := PyBool false]> (<["preset" := PyStr "speech"]> ∅)]> ∅)))
|}.

(** ** pathlib (POSIX flavour)

    A path is the tuple [PurePath.parts]: the components from left to right,
    with ["/"] as the first one when the path is absolute. *)

Module PathLib.

Abbreviation Path := (list string).

(** [s.split(sep)] *)
Fixpoint split (sep : ascii) (s : string) : list string :=
  match s with
  | EmptyString => [EmptyString]
  | String c s' =>
      if Ascii.eqb c sep then EmptyString :: split sep s'
      else match split sep s' with
           | [] => [String c EmptyString]
           | w :: ws => String c w :: ws
           end
  end.

Definition is_absolute (s : string) : bool := String.prefix "/" s.

(** The components of a path string: empty and ["."] ones are dropped. *)
Definition components (s : string) : Path :=
  List.filter (fun w => negb (String.eqb w "") && negb (String.eqb w "."))
              (split "/" s).

(** [Path(s)] *)
Definition of_string (s : string) : Path :=
  if is_absolute s then "/" :: components s else components s.

(** [p / s] for a string [s]: an absolute [s] replaces [p]. *)
Definition joinpath (p : Path) (s : string) : Path :=
  if is_absolute s then of_string s else (p ++ components s)%list.

(** [str(p)] *)
Definition to_string (p : Path) : string :=
  match p with
  | [] => "."
  | r :: rest =>
      if String.eqb r "/" then "/" ++ String.concat "/" rest
      else String.concat "/" p
  end.

(** [p.name]: the final component, empty for the root. *)
Definition name (p : Path) : string :=
  let n := List.last p "" in
  if String.eqb n "/" then "" else n.

(** [s.rfind(c)], with [None] for -1. *)
Fixpoint rfind (c : ascii) (s : string) : option nat :=
  match s with
  | EmptyString => None
  | String d s' =>
      match rfind c s' with
      | Some i => Some (S i)
      | None => if Ascii.eqb d c then Some 0 else None
      end
  end.

(** [p.stem]: the name up to its last dot, unless that dot is the first
    or the last character of the name. *)
Definition stem (p : Path) : string :=
  let n := name p in
  match rfind "." n with
  | Some i =>
      if (0 <? i)%nat && (i <? String.length n - 1)%nat
      then String.substring 0 i n
      else n
  | None => n
  end.

(** [fnmatch.fnmatchcase(name, pat)] for patterns made of literal
    characters, [*] and [?] (the driver's patterns have no bracket
    classes).  Matching is case-sensitive, as on POSIX. *)
Fixpoint fnmatch (pat : list ascii) (name : list ascii) : bool :=
  match pat with
  | [] => match name with [] => true | _ => false end
  | c :: pat' =>
      if Ascii.eqb c "*" then
        (fix star (n : list ascii) : bool :=
           fnmatch pat' n
           || match n with
              | [] => false
              | _ :: n' => star n'
              end) name
      else
        match name with
        | [] => false
        | d :: name' =>
            (Ascii.eqb c "?" || Ascii.eqb c d) && fnmatch pat' name'
        end
  end.

End PathLib.
Import PathLib.

Notation "p // s" := (joinpath p s) (at level 40, left associativity).

(** ** The world the driver runs in *)

Inductive kind : Type := File | Dir.

(** One constructor per [logger] call of the source. *)
Inductive event : Type :=
| Info_processing (file_path : Path)          (* "Processing file: ..." *)
| Info_skipping (output_path : Path)          (* "Output file ... already exists. Skipping." *)
| Info_running (cmd : list string)            (* "Running FFmpeg: ..." *)
| Info_success (output_path : Path)           (* "Successfully processed to ..." *)
| Error_processing (file_path : Path) (e : exn) (* "Error processing ...: ..." *)
| Warning_no_audio (input_path : Path)        (* "No audio files found in ..." *)
| Info_found (n : nat)                        (* "Found ... audio files to process" *)
| Error_failed (e : exn)                      (* "File processing failed: ..." *)
| Error_no_input (input_path : Path).         (* "Input path ... does not exist" *)

(** [fs] maps the paths that exist to what they are, [log] is what the
    logger has been handed and [calls] the commands given to
    [subprocess.run], both oldest first. *)
Record world : Type := World {
  fs : gmap (list string) kind;
  log : list event;
  calls : list (list string)
}.

(** What starting the engine leads to: the child ran to an exit status and
    left the file system as [fs'], or it could not be started. *)
Inductive outcome : Type :=
| Exited (returncode : Z) (fs' : gmap (list string) kind)
| Not_started (errno : Z).

(** Stateful computations that may raise. *)
Definition M (A : Type) : Type := world -> result A * world.

#[export] Instance M_ret : MRet M := fun A a w => (Ret a, w).
#[export] Instance M_bind : MBind M := fun A B k m w =>
  match m w with
  | (Ret a, w') => k a w'
  | (Raise e, w') => (Raise e, w')
  end.

Definition lift {A} (r : result A) : M A := fun w => (r, w).

(** [try: body / except <handles> as e: handler e] *)
Definition try_except {A} (body : M A) (handles : exn -> bool) (handler : exn -> M A) : M A :=
  fun w =>
    match body w with
    | (Raise e, w') => if handles e then handler e w' else (Raise e, w')
    | r => r
    end.

Definition logger (ev : event) : M unit :=
  fun w => (Ret tt, World (fs w) (log w ++ [ev])%list (calls w)).

Definition exists_ (p : Path) : M bool :=
  fun w => (Ret (match fs w !! p with Some _ => true | None => false end), w).

Definition is_file (p : Path) : M bool :=
  fun w => (Ret (match fs w !! p with Some File => true | _ => false end), w).

Definition is_dir (p : Path) : M bool :=
  fun w => (Ret (match fs w !! p with Some Dir => true | _ => false end), w).

(** [Path(v)] for a configuration value. *)
Definition Path_of (v : scalar) : result Path :=
  match v with
  | PyStr s => Ret (of_string s)
  | _ => Raise (TypeError "expected str, bytes or os.PathLike object")
  end.

(** The strings of an argument list; anything else makes [" ".join(cmd)]
    (and [subprocess.run]) raise [TypeError]. *)
Fixpoint str_items (cmd : list scalar) : result (list string) :=
  match cmd with
  | [] => Ret []
  | PyStr s :: rest => rest' ← str_items rest; Ret (s :: rest')
  | _ :: _ => Raise (TypeError "sequence item: expected str instance")
  end.

(** The name [q] has inside directory [d], when [q] is an immediate entry of it. *)
Fixpoint entry_name (d q : Path) : option string :=
  match d, q with
  | [], [n] => Some n
  | c :: d', c' :: q' => if String.eqb c c' then entry_name d' q' else None
  | _, _ => None
  end.

(** [os.scandir(d)]: the names of the immediate entries of [d], in the
    order the file system lists them. *)
Definition scandir (t : gmap (list string) kind) (d : Path) : list string :=
  omap (entry_name d) ((map_to_list t).*1).

(** The entries of [d] whose name matches [pattern]. *)
Definition glob_in (t : gmap (list string) kind) (d : Path) (pattern : string) : list Path :=
  (fun n => d ++ [n])%list
    <$> List.filter (fun n => fnmatch (list_ascii_of_string pattern) (list_ascii_of_string n))
                    (scandir t d).

(** [list(d.glob(pattern))] for a pattern without separators. *)
Definition glob (d : Path) (pattern : string) : M (list Path) :=
  fun w => (Ret (glob_in (fs w) d pattern), w).

Section Driver.

Context (float_repr : float -> string).
(** The external engine, a black box from the file system and the
    command line to what happens. *)
Context (engine : gmap (list string) kind -> list string -> outcome).

(** [subprocess.run(cmd, stdout=PIPE, stderr=PIPE, check=True)] *)
Definition subprocess_run (cmd : list string) : M unit :=
  fun w =>
    let w' := World (fs w) (log w) (calls w ++ [cmd])%list in
    match engine (fs w) cmd with
    | Exited rc fs' =>
        let w'' := World fs' (log w') (calls w') in
        if (rc =? 0)%Z then (Ret tt, w'') else (Raise (CalledProcessError rc cmd), w'')
    | Not_started errno => (Raise (OSError errno), w')
    end.

(** [_process_single_file] *)
Definition _process_single_file (cfg : config) (file_path : Path) : M (option Path) :=
  directory ← lift (getitem (output cfg) "directory");
  output_dir ← lift (Path_of directory);
  (* Define output filename *)
  suffix ← lift (getitem (output cfg) "suffix");
  format ← lift (getitem (output cfg) "format");
  let output_filename := stem file_path ++ py_str float_repr suffix ++ "." ++ py_str float_repr format in
  let output_path := output_dir // output_filename in
  _ ← logger (Info_processing file_path);
  (* Check if output already exists *)
  found ← exists_ output_path;
  if (found : bool) then
    _ ← logger (Info_skipping output_path);
    mret (Some output_path)
  else
    (* Build the FFmpeg filter chain *)
    filter_chain ← lift (_build_filter_chain float_repr cfg);
    (* Compress to desired format if requested *)
    enabled ← lift (getitem (compression cfg) "enabled");
    '(output_path, encoding_options) ←
      (if truthy enabled then
         output_format ← lift (getitem (compression cfg) "format");
         output_codec ← lift (getitem (compression cfg) "codec");
         output_bitrate ← lift (getitem (compression cfg) "bitrate");
         (* Update output path if compressing to a different format *)
         format ← lift (getitem (output cfg) "format");
         output_path ←
           (if negb (Py.equal output_format format) then
              suffix ← lift (getitem (output cfg) "suffix");
              let output_filename :=
                stem file_path ++ py_str float_repr suffix ++ "." ++ py_str float_repr output_format in
              mret (output_dir // output_filename)
            else mret output_path);
         (* Add encoding options *)
         mret (output_path, [PyStr "-c:a"; output_codec; PyStr "-b:a"; output_bitrate])
       else
         (* Use PCM for WAV or best quality for the chosen format *)
         format ← lift (getitem (output cfg) "format");
         if Py.equal format (PyStr "wav")
         then mret (output_path, [PyStr "-c:a"; PyStr "pcm_s16le"])
         else mret (output_path, [])) : M (Path * list scalar);
    (* Build the complete FFmpeg command *)
    let cmd := [PyStr "ffmpeg"; PyStr "-i"; PyStr (to_string file_path)] in
    (* Add filter complex if we have any filters *)
    let cmd := if negb (String.eqb filter_chain "")
               then (cmd ++ [PyStr "-filter_complex"; PyStr filter_chain])%list
               else cmd in
    (* Add encoding options *)
    let cmd := (cmd ++ encoding_options)%list in
    (* Add output file and force overwrite *)
    let cmd := (cmd ++ [PyStr "-y"; PyStr (to_string output_path)])%list in
    (* Execute the command *)
    try_except
      (args ← lift (str_items cmd);
       _ ← logger (Info_running args);
       _ ← subprocess_run args;
       _ ← logger (Info_success output_path);
       mret (Some output_path))
      is_SubprocessError
      (fun e => _ ← logger (Error_processing file_path e); mret None).

Definition audio_extensions : list string :=
  [".wav"; ".mp3"; ".m4a"; ".aac"; ".ogg"; ".flac"].

(** The loop that fills [audio_files], one [glob] per extension. *)
Fixpoint collect (input_path : Path) (exts : list string) (audio_files : list Path)
  : M (list Path) :=
  match exts with
  | [] => mret audio_files
  | ext :: exts' =>
      found ← glob input_path ("*" ++ ext);
      collect input_path exts' (audio_files ++ found)%list
  end.

(** The thread pool: every submitted file is processed, and whatever a
    task raises is caught and logged when its result is read.  Tasks are
    run one after the other, in the order of submission. *)
Fixpoint run_pool (cfg : config) (files : list Path) : M unit :=
  match files with
  | [] => mret tt
  | file :: files' =>
      _ ← try_except
            (_ ← _process_single_file cfg file; mret tt)
            (fun _ => true)
            (fun exc => logger (Error_failed exc));
      run_pool cfg files'
  end.

(** [process_audio_files] *)
Definition process_audio_files (cfg : config) (input_path : string) : M unit :=
  let input_path := of_string input_path in
  isf ← is_file input_path;
  if (isf : bool) then
    _ ← _process_single_file cfg input_path; mret tt
  else
    isd ← is_dir input_path;
    if (isd : bool) then
      (* Process all audio files *)
      audio_files ← collect input_path audio_extensions [];
      match audio_files with
      | [] => logger (Warning_no_audio input_path)
      | _ =>
          _ ← logger (Info_found (List.length audio_files));
          run_pool cfg audio_files
      end
    else logger (Error_no_input input_path).

End Driver.

(** ** What the specification says, in its own words

    These definitions follow the specification (sections 3 and 4); the
    theorems below compare them with the code above. *)

(** The value of an option, [None] standing for one that is not set. *)
Definition option_of (block : gmap string scalar) (key : string) : scalar :=
  default PyNone (block !! key).

Definition stage_block (cfg : config) (stage : string) : gmap string scalar :=
  default ∅ (preprocessing cfg !! stage).

(** The four stages, in the order of the chain. *)
Definition stage_order : list string :=
  ["noise_reduction"; "normalization"; "compression"; "eq"].

(** The options a stage reads once it is enabled. *)
Definition stage_keys (stage : string) : list string :=
  if String.eqb stage "noise_reduction" then ["strength"]
  else if String.eqb stage "normalization" then ["target_level"; "true_peak"]
  else if String.eqb stage "compression" then ["threshold"; "ratio"; "attack"; "release"]
  else if String.eqb stage "eq" then ["preset"]
  else [].

Definition is_enabled (cfg : config) (stage : string) : bool :=
  truthy (option_of (stage_block cfg stage) "enabled").

Definition has (block : gmap string scalar) (key : string) : bool :=
  match block !! key with Some _ => true | None => false end.

Definition has_str (block : gmap string scalar) (key : string) : bool :=
  match block !! key with Some (PyStr _) => true | _ => false end.

(** A stage is well formed when its block and its [enabled] flag are
    there, and so is every option it reads when enabled. *)
Definition stage_conforms (cfg : config) (stage : string) : bool :=
  match preprocessing cfg !! stage with
  | Some block =>
      has block "enabled"
      && (if truthy (option_of block "enabled")
          then forallb (has block) (stage_keys stage) else true)
  | None => false
  end.

Definition chain_conforms (cfg : config) : bool :=
  forallb (stage_conforms cfg) stage_order.

Definition output_conforms (cfg : config) : bool :=
  has_str (output cfg) "directory" && has (output cfg) "suffix" && has (output cfg) "format".

Definition compression_conforms (cfg : config) : bool :=
  has (compression cfg) "enabled"
  && (if truthy (option_of (compression cfg) "enabled")
      then has (compression cfg) "format" && has_str (compression cfg) "codec"
           && has_str (compression cfg) "bitrate"
      else true).

(** The configuration sets every option the code reads, and the output
    directory, the codec and the bitrate are strings (section 3). *)
Definition conforms (cfg : config) : bool :=
  output_conforms cfg && compression_conforms cfg && chain_conforms cfg.

(** Section 4.1, noise reduction: the reduction factor of a strength. *)
Definition reduction_factor (strength : scalar) : string :=
  match strength with
  | PyStr s =>
      if String.eqb s "low" then "0.2"
      else if String.eqb s "medium" then "0.4"
      else if String.eqb s "high" then "0.6"
      else "0.4"
  | _ => "0.4"
  end.

(** One parametric-EQ band: centre frequency and width in Hz, gain in dB. *)
Definition band (f width g : Z) : string :=
  "equalizer=f=" ++ pretty f ++ ":width_type=h:width=" ++ pretty width ++ ":g=" ++ pretty g.

Definition speech_bands : list string :=
  [band 100 200 (-3); band 300 200 2; band 1500 1000 3; band 4000 1000 1; band 8000 2000 (-2)].

Definition music_bands : list string :=
  [band 60 100 1; band 300 200 0; band 1500 1000 1; band 6000 2000 2].

Definition preset_bands (preset : scalar) : list string :=
  match preset with
  | PyStr s =>
      if String.eqb s "speech" then speech_bands
      else if String.eqb s "music" then music_bands
      else []
  | _ => []
  end.

Section Specification.

Context (float_repr : float -> string).

Definition noise_reduction_stage (cfg : config) : string :=
  "afftdn=nr=" ++ reduction_factor (option_of (stage_block cfg "noise_reduction") "strength")
    ++ ":nf=-25".

Definition normalization_stage (cfg : config) : string :=
  let block := stage_block cfg "normalization" in
  "loudnorm=I=" ++ py_str float_repr (option_of block "target_level")
    ++ ":TP=" ++ py_str float_repr (option_of block "true_peak") ++ ":LRA=7".

Definition compression_stage (cfg : config) : string :=
  let block := stage_block cfg "compression" in
  "acompressor=threshold=" ++ py_str float_repr (option_of block "threshold")
    ++ "dB:ratio=" ++ py_str float_repr (option_of block "ratio")
    ++ ":attack=" ++ py_str float_repr (option_of block "attack")
    ++ ":release=" ++ py_str float_repr (option_of block "release").

(** The stage expressions a stage contributes when it is enabled. *)
Definition stage_filters (cfg : config) (stage : string) : list string :=
  if String.eqb stage "noise_reduction" then [noise_reduction_stage cfg]
  else if String.eqb stage "normalization" then [normalization_stage cfg]
  else if String.eqb stage "compression" then [compression_stage cfg]
  else if String.eqb stage "eq" then preset_bands (option_of (stage_block cfg "eq") "preset")
  else [].

Definition enabled_filters (cfg : config) (stage : string) : list string :=
  if is_enabled cfg stage then stage_filters cfg stage else [].

(** Section 4.1: the enabled stages, in the fixed order, comma-delimited. *)
Definition Compile (cfg : config) : string :=
  Py.join "," (flat_map (enabled_filters cfg) stage_order).

(** Section 4.2, step 1: the format of the produced file. *)
Definition output_format (cfg : config) : scalar :=
  let base := option_of (output cfg) "format" in
  let target := option_of (compression cfg) "format" in
  if truthy (option_of (compression cfg) "enabled") && negb (Py.equal target base)
  then target else base.

Definition output_directory (cfg : config) : Path :=
  match option_of (output cfg) "directory" with
  | PyStr s => of_string s
  | _ => []
  end.

Definition filename (cfg : config) (file : Path) (format : scalar) : string :=
  stem file ++ py_str float_repr (option_of (output cfg) "suffix") ++ "."
    ++ py_str float_repr format.

(** [<output_dir>/<stem><suffix>.<base output format>] *)
Definition base_path (cfg : config) (file : Path) : Path :=
  output_directory cfg // filename cfg file (option_of (output cfg) "format").

(** [<output_dir>/<stem><suffix>.<outputFormat>] *)
Definition output_path (cfg : config) (file : Path) : Path :=
  output_directory cfg // filename cfg file (output_format cfg).

Definition str_of (v : scalar) : string :=
  match v with PyStr s => s | _ => "" end.

(** Section 4.2, step 3: the encoding options. *)
Definition encoding_options (cfg : config) : list string :=
  if truthy (option_of (compression cfg) "enabled") then
    ["-c:a"; str_of (option_of (compression cfg) "codec");
     "-b:a"; str_of (option_of (compression cfg) "bitrate")]
  else if Py.equal (option_of (output cfg) "format") (PyStr "wav") then
    ["-c:a"; "pcm_s16le"]
  else [].

(** Section 6: [<engine> -i <input> [-filter_complex <chain>] <encoding-options...> -y <output>] *)
Definition command (cfg : config) (file : Path) : list string :=
  (["ffmpeg"; "-i"; to_string file]
     ++ (if String.eqb (Compile cfg) "" then [] else ["-filter_complex"; Compile cfg])
     ++ encoding_options cfg
     ++ ["-y"; to_string (output_path cfg file)])%list.

End Specification.

(** A stage is disabled when its [enabled] flag is set and false. *)
Definition is_disabled (cfg : config) (stage : string) : bool :=
  match preprocessing cfg !! stage with
  | Some block =>
      match block !! "enabled" with
      | Some en => negb (truthy en)
      | None => false
      end
  | None => false
  end.

Section Outcomes.

Context (float_repr : float -> string).

Definition logged (w : world) (evs : list event) : world :=
  World (fs w) (log w ++ evs)%list (calls w).

(** The skip branch of [_process_single_file]. *)
Definition skipped (cfg : config) (file : Path) (w : world) : result (option Path) * world :=
  let found := base_path float_repr cfg file in
  (Ret (Some found), logged w [Info_processing file; Info_skipping found]).

(** How [_process_single_file] ends for each outcome of the engine. *)
Definition finished (cfg : config) (file : Path) (w : world) (o : outcome)
  : result (option Path) * world :=
  let cmd := command float_repr cfg file in
  let out := output_path float_repr cfg file in
  match o with
  | Exited rc fs' =>
      if (rc =? 0)%Z then
        (Ret (Some out),
         World fs' (log w ++ [Info_processing file; Info_running cmd; Info_success out])%list
               (calls w ++ [cmd])%list)
      else
        (Ret None,
         World fs' (log w ++ [Info_processing file; Info_running cmd;
                              Error_processing file (CalledProcessError rc cmd)])%list
               (calls w ++ [cmd])%list)
  | Not_started errno =>
      (Raise (OSError errno),
       World (fs w) (log w ++ [Info_processing file; Info_running cmd])%list
             (calls w ++ [cmd])%list)
  end.

End Outcomes.

(** An entry has extension [ext] when its name ends with [ext]. *)
Definition has_extension (name ext : string) : Prop :=
  exists front : string, name = front ++ ext.

(** Section 4.2, input resolution: the files of a directory that become tasks. *)
Definition audio_files (t : gmap (list string) kind) (d : Path) : list Path :=
  flat_map (fun ext => glob_in t d ("*" ++ ext)) audio_extensions.

(** A pattern character that stands for itself. *)
Definition literal (c : ascii) : bool :=
  negb (Ascii.eqb c "*") && negb (Ascii.eqb c "?").

(** [cfg] with the strength of the noise reduction set to [v]. *)
Definition with_strength (cfg : config) (v : scalar) : config :=
  Config (output cfg) (compression cfg)
         (<["noise_reduction" := <["strength" := v]> (stage_block cfg "noise_reduction")]>
            (preprocessing cfg)).

(** Only the noise reduction is enabled, and its strength is not set. *)
Definition unset_strength_config : config :=
  Config (output default_config) (compression default_config)
         (<["noise_reduction" := <["enabled" := PyBool true]> ∅]>
         (<["normalization" := <["enabled" := PyBool false]> ∅]>
         (<["compression" := <["enabled" := PyBool false]> ∅]>
         (<["eq" := <["enabled" := PyBool false]> ∅]> ∅)))).

(** Every stage is disabled. *)
Definition all_disabled_config : config :=
  Config (output default_config) (compression default_config)
         (<["noise_reduction" := <["enabled" := PyBool false]> ∅]>
         (<["normalization" := <["enabled" := PyBool false]> ∅]>
         (<["compression" := <["enabled" := PyBool false]> ∅]>
         (<["eq" := <["enabled" := PyBool false]> ∅]> ∅)))).

(** The default configuration with the equalizer switched on. *)
Definition speech_config : config :=
  Config (output default_config) (compression default_config)
         (<["eq" := <["enabled" := PyBool true]> (<["preset" := PyStr "speech"]> ∅)]>
            (preprocessing default_config)).

(** ** Sample worlds *)

(** A directory with two recordings, a text file, an upper-case name and a
    recording one level further down. *)
Definition sample_fs : gmap (list string) kind :=
  <[ ["processed_audio"] := Dir ]> (<[ ["rec"] := Dir ]> (<[ ["rec"; "a.wav"] := File ]>
  (<[ ["rec"; "b.mp3"] := File ]> (<[ ["rec"; "readme.txt"] := File ]>
  (<[ ["rec"; "C.WAV"] := File ]>
  (<[ ["rec"; "sub"] := Dir ]> (<[ ["rec"; "sub"; "c.wav"] := File ]> ∅))))))).

(** An engine that always succeeds and writes its destination. *)
Definition ffmpeg_ok (t : gmap (list string) kind) (cmd : list string) : outcome :=
  Exited 0 (<[ of_string (List.last cmd "") := File ]> t).

(** An engine that cannot be started ([EMFILE]). *)
Definition ffmpeg_missing (t : gmap (list string) kind) (cmd : list string) : outcome :=
  Not_started 24.

Definition sample_repr (f : float) : string := "-1.5".

(** The sample directory once [a.wav] has been processed with the default
    configuration. *)
Definition rerun_fs : gmap (list string) kind :=
  <[ ["processed_audio"; "a_processed.m4a"] := File ]> sample_fs.

(** Only the noise reduction is enabled, with a null strength. *)
Definition null_strength_config : config := with_strength unset_strength_config PyNone.

(** ** Further notions used to describe the code *)

(** A result that is a value or a [KeyError]. *)
Definition only_KeyError {A} (r : result A) : Prop :=
  match r with Ret _ => True | Raise e => exists k, e = KeyError k end.

(** [cfg] with option [key] of the block of [stage] set to [v]. *)
Definition with_option (cfg : config) (stage key : string) (v : scalar) : config :=
  Config (output cfg) (compression cfg)
         (<[stage := <[key := v]> (stage_block cfg stage)]> (preprocessing cfg)).

(** A computation [grows] by at most [n] engine calls: it only appends to
    the log and to the calls, at most [n] of the latter, and it leaves the
    file system alone unless it called the engine. *)
Definition grows {A} (n : nat) (m : M A) : Prop :=
  forall w, exists evs cs,
    log (snd (m w)) = (log w ++ evs)%list
    /\ calls (snd (m w)) = (calls w ++ cs)%list
    /\ (List.length cs <= n)%nat
    /\ (cs = [] -> fs (snd (m w)) = fs w).

(** ** Start-up: the configuration file, the output directory, the engine

    [load_config], [setup], [_check_dependencies], [generate_config_file]
    and [main] log through the same logger and may end the program; their
    messages and the documents the configuration files hold are kept in a
    [session] around the driver's world. *)

(** One constructor per [logger] call of these functions. *)
Inductive notice : Type :=
| Info_configuration_loaded (config_path : string) (* "Configuration loaded from ..." *)
| Warning_config_not_found (config_path : string)  (* "Config file ... not found. Using defaults." *)
| Info_ffmpeg_installed                             (* "FFmpeg is installed." *)
| Error_ffmpeg_not_installed                        (* "FFmpeg is not installed or not in PATH. ..." *)
| Info_generated (output_path : string).            (* "Generated default config file at ..." *)

(** [documents] gives, for a file, the configuration that [yaml.safe_load]
    reads from it; [yaml.dump] of a configuration writes a file that reads
    back as that configuration.  A file without an entry holds something
    else than a configuration (no mapping, or values that are no scalars). *)
Record session : Type := Session {
  here : world;
  notices : list notice;
  documents : gmap (list string) config
}.

(** How a run is cut short: an exception nobody catches, [sys.exit], or a
    file that holds no configuration.  The source stores whatever
    [yaml.safe_load] returns and fails at a later subscript; the run is
    followed no further than the load here. *)
Inductive halt : Type :=
| Uncaught (e : exn)
| Not_a_configuration
| SystemExit (status : Z).

Inductive ending (A : Type) : Type :=
| Done (a : A)
| Halted (h : halt).
Arguments Done {A} a.
Arguments Halted {A} h.

Definition Proc (A : Type) : Type := session -> ending A * session.

#[export] Instance Proc_ret : MRet Proc := fun A a s => (Done a, s).
#[export] Instance Proc_bind : MBind Proc := fun A B k m s =>
  match m s with
  | (Done a, s') => k a s'
  | (Halted h, s') => (Halted h, s')
  end.

(** A computation of the driver, run on the session's world. *)
Definition in_world {A} (m : M A) : Proc A :=
  fun s =>
    match m (here s) with
    | (Ret a, w') => (Done a, Session w' (notices s) (documents s))
    | (Raise e, w') => (Halted (Uncaught e), Session w' (notices s) (documents s))
    end.

Definition notify (n : notice) : Proc unit :=
  fun s => (Done tt, Session (here s) (notices s ++ [n])%list (documents s)).

(** [sys.exit(status)] *)
Definition sys_exit {A} (status : Z) : Proc A :=
  fun s => (Halted (SystemExit status), s).

(** [try: body / except <handles>: handler]; [SystemExit] and a malformed
    document are not among the exceptions the source names. *)
Definition try_catch {A} (body : Proc A) (handles : exn -> bool) (handler : Proc A) : Proc A :=
  fun s =>
    match body s with
    | (Halted (Uncaught e), s') => if handles e then handler s' else (Halted (Uncaught e), s')
    | r => r
    end.

(** [FileNotFoundError] is the [OSError] whose [errno] is [ENOENT]. *)
Definition is_FileNotFoundError (e : exn) : bool :=
  match e with
  | OSError errno => (errno =? 2)%Z
  | _ => false
  end.

(** What the system finds when it follows [rest] from the directory
    [seen]: an error number ([ENOENT] for a missing component, [ENOTDIR]
    for a regular file on the way) or the kind of the entry. *)
Fixpoint walk (t : gmap (list string) kind) (seen : Path) (rest : list string) : Z + kind :=
  match rest with
  | [] => inr Dir
  | c :: rest' =>
      match t !! (seen ++ [c])%list with
      | None => inl 2%Z
      | Some File => match rest' with [] => inr File | _ => inl 20%Z end
      | Some Dir => walk t (seen ++ [c])%list rest'
      end
  end.

(** [os.stat(p)]; the root and the working directory are always there. *)
Definition stat (t : gmap (list string) kind) (p : Path) : Z + kind :=
  match p with
  | r :: rest => if String.eqb r "/" then walk t ["/"] rest else walk t [] p
  | [] => inr Dir
  end.

(** [open(path, 'r')]: the error number, or the path of the regular file.
    Path strings are split into components as [pathlib] does it. *)
Definition open_r (t : gmap (list string) kind) (path : string) : Z + Path :=
  if String.eqb path "" then inl 2%Z
  else match stat t (of_string path) with
       | inl errno => inl errno
       | inr Dir => inl 21%Z
       | inr File => inr (of_string path)
       end.

(** [open(path, 'w')]: likewise; a missing file is created when the
    directory it goes to is there. *)
Definition open_w (t : gmap (list string) kind) (path : string) : Z + Path :=
  if String.eqb path "" then inl 2%Z
  else match stat t (of_string path) with
       | inr Dir => inl 21%Z
       | inr File => inr (of_string path)
       | inl errno =>
           match stat t (removelast (of_string path)) with
           | inr Dir => inr (of_string path)
           | inr File => inl 20%Z
           | inl errno' => inl errno'
           end
       end.

(** [os.makedirs] below [seen]: the file system it leaves, and the error
    number when it fails ([EEXIST] when the leaf is a regular file,
    [ENOTDIR] when a regular file is on the way). *)
Fixpoint makedirs_from (t : gmap (list string) kind) (seen : Path) (rest : list string)
  : gmap (list string) kind * option Z :=
  match rest with
  | [] => (t, None)
  | c :: rest' =>
      let q := (seen ++ [c])%list in
      match t !! q with
      | Some Dir => makedirs_from t q rest'
      | Some File => (t, Some (match rest' with [] => 17 | _ => 20 end)%Z)
      | None => makedirs_from (<[q := Dir]> t) q rest'
      end
  end.

(** [os.makedirs(v, exist_ok=True)] *)
Definition os_makedirs (v : scalar) : Proc unit :=
  fun s =>
    let w := here s in
    match v with
    | PyStr path =>
        if String.eqb path "" then (Halted (Uncaught (OSError 2)), s)
        else
          let '(t', err) :=
            match of_string path with
            | r :: rest =>
                if String.eqb r "/" then makedirs_from (fs w) ["/"] rest
                else makedirs_from (fs w) [] (r :: rest)
            | [] => (fs w, None)
            end in
          let s' := Session (World t' (log w) (calls w)) (notices s) (documents s) in
          match err with
          | None => (Done tt, s')
          | Some errno => (Halted (Uncaught (OSError errno)), s')
          end
    | _ => (Halted (Uncaught (TypeError "expected str, bytes or os.PathLike object")), s)
    end.

(** [os.path.exists(path)] *)
Definition os_path_exists (path : string) : Proc bool :=
  fun s =>
    (Done (negb (String.eqb path "")
           && match stat (fs (here s)) (of_string path) with inr _ => true | inl _ => false end),
     s).

(** The dictionary [generate_config_file] writes (lines 260-294). *)
Definition generated_config : config := {|
  output := <["format" := PyStr "wav"]> (<["directory" := PyStr "processed_audio"]>
            (<["suffix" := PyStr "_processed"]> ∅));
  compression := <["enabled" := PyBool true]> (<["format" := PyStr "m4a"]>
                 (<["codec" := PyStr "aac"]> (<["bitrate" := PyStr "128k"]> ∅)));
  preprocessing :=
    <["noise_reduction" := <["enabled" := PyBool true]> (<["strength" := PyStr "medium"]> ∅)]>
    (<["normalization" := <["enabled" := PyBool true]> (<["target_level" := PyInt (-16)]>
                          (<["true_peak" := PyFloat (-1.5)%float]> ∅))]>
    (<["compression" := <["enabled" := PyBool false]> (<["threshold" := PyInt (-20)]>
                        (<["ratio" := PyInt 4]> (<["attack" := PyInt 5]>
                        (<["release" := PyInt 50]> ∅))))]>
    (<["eq" := <["enabled" := PyBool false]> (<["preset" := PyStr "speech"]> ∅)]> ∅)))
|}.

(** [generate_config_file] *)
Definition generate_config_file (output_path : string) : Proc unit :=
  let config := generated_config in
  fun s =>
    let w := here s in
    match open_w (fs w) output_path with
    | inl errno => (Halted (Uncaught (OSError errno)), s)
    | inr p =>
        notify (Info_generated output_path)
               (Session (World (<[p := File]> (fs w)) (log w) (calls w))
                        (notices s) (<[p := config]> (documents s)))
    end.

(** [load_config]: the configuration it stores in [self.config]. *)
Definition load_config (config_path : string) : Proc config :=
  try_catch
    (fun s =>
       match open_r (fs (here s)) config_path with
       | inl errno => (Halted (Uncaught (OSError errno)), s)
       | inr p =>
           match documents s !! p with
           | Some config =>
               (_ ← notify (Info_configuration_loaded config_path); mret config) s
           | None => (Halted Not_a_configuration, s)
           end
       end)
    is_FileNotFoundError
    (_ ← notify (Warning_config_not_found config_path); mret default_config).

Section StartUp.

Context (float_repr : float -> string).
Context (engine : gmap (list string) kind -> list string -> outcome).

(** [_check_dependencies] *)
Definition _check_dependencies : Proc unit :=
  try_catch
    (_ ← in_world (subprocess_run engine ["ffmpeg"; "-version"]);
     notify Info_ffmpeg_installed)
    (fun e => is_SubprocessError e || is_FileNotFoundError e)
    (_ ← notify Error_ffmpeg_not_installed; sys_exit 1).

(** [setup] *)
Definition setup (cfg : config) : Proc unit :=
  directory ← in_world (lift (getitem (output cfg) "directory"));
  _ ← os_makedirs directory;
  _check_dependencies.

(** [AudioPreprocessor(config_path)]: [__init__], giving [self.config]. *)
Definition AudioPreprocessor (config_path : string) : Proc config :=
  cfg ← load_config config_path;
  _ ← setup cfg;
  mret cfg.

(** [main], on the parsed arguments. *)
Definition main (input config_path : string) (generate_config : bool) : Proc unit :=
  go_on ← (if generate_config then
             _ ← generate_config_file config_path;
             os_path_exists input
           else mret true);
  if (go_on : bool) then
    processor ← AudioPreprocessor config_path;
    in_world (process_audio_files float_repr engine processor input)
  else mret tt.

End StartUp.

(** ** Documents of any shape

    [yaml.safe_load] returns whatever the file holds, and [load_config]
    stores it unexamined: a block may be null, a scalar or a list where the
    code subscripts it, and an option may hold a list or a mapping.  This
    module embeds [_build_filter_chain] over every such document; the
    [config] records above are the documents whose blocks are mappings
    with string keys and scalar leaves ([of_config]). *)

Module Document.

(** A value of a loaded document: a scalar, a list, a dict (its items in
    order, each key once), or an object of another type ([!!timestamp],
    [!!binary], [!!set], a tuple of [!!omap]), of which the code can only
    observe whether it is hashable, its truth value and its [str]. *)
#[warnings="-register-all"]
Inductive value : Type :=
| Scalar (v : scalar)
| PyList (items : list value)
| PyDict (items : list (value * value))
| PyObject (is_hashable truth : bool) (text : string).

(** The value a dict holds under the string [k]: only a [str] key equals
    a [str]. *)
Fixpoint lookup_str (items : list (value * value)) (k : string) : option value :=
  match items with
  | [] => None
  | (Scalar (PyStr s), v) :: items' =>
      if String.eqb s k then Some v else lookup_str items' k
  | _ :: items' => lookup_str items' k
  end.

(** [d[k]] for a string [k]: [KeyError] on a dict without the key,
    [TypeError] on anything that is not a dict ([None], a number, a string
    or a list subscripted by a string). *)
Definition getitem (d : value) (k : string) : result value :=
  match d with
  | PyDict items =>
      match lookup_str items k with
      | Some v => Ret v
      | None => Raise (KeyError k)
      end
  | _ => Raise (TypeError "not subscriptable by a string")
  end.

(** [bool(v)] *)
Definition truthy (v : value) : bool :=
  match v with
  | Scalar s => Py.truthy s
  | PyList items => match items with [] => false | _ => true end
  | PyDict items => match items with [] => false | _ => true end
  | PyObject _ truth _ => truth
  end.

(** Whether [hash(v)] succeeds: not for a list or a dict. *)
Definition hashable (v : value) : bool :=
  match v with
  | Scalar _ => true
  | PyList _ | PyDict _ => false
  | PyObject is_hashable _ _ => is_hashable
  end.

(** [v == s] for a string literal [s]. *)
Definition equal_str (v : value) (s : string) : bool :=
  match v with
  | Scalar x => Py.equal x (PyStr s)
  | _ => false
  end.

(** [d.get(k, dflt)] on a dict with string keys: the key is hashed first,
    which raises [TypeError] for a list or a dict. *)
Definition get {V} (d : gmap string V) (k : value) (dflt : V) : result V :=
  if hashable k then
    match k with
    | Scalar x => Ret (Py.get d x dflt)
    | _ => Ret dflt
    end
  else Raise (TypeError "unhashable type").

Section Compiler.

(** [repr] of a float and [str] of a list or a dict are left abstract. *)
Context (float_repr : float -> string).
Context (container_str : value -> string).

(** [format(v, "")], which is what an f-string field [{v}] renders: the
    [str] of the value. *)
Definition py_format (v : value) : string :=
  match v with
  | Scalar x => py_str float_repr x
  | PyList _ | PyDict _ => container_str v
  | PyObject _ _ text => text
  end.

(** [self.config["preprocessing"][stage][key]] *)
Definition stage_option (config : value) (stage key : string) : result value :=
  (p ← getitem config "preprocessing"; s ← getitem p stage; getitem s key).

(** [_build_filter_chain] on [self.config = config]. *)
Definition _build_filter_chain (config : value) : result string :=
  (let filters : list string := [] in
   (* Noise reduction *)
   en ← stage_option config "noise_reduction" "enabled";
   filters ←
     (if truthy en then
        strength ← stage_option config "noise_reduction" "strength";
        noise_strength ← get strength_map strength "0.4";
        Ret (append filters ("afftdn=nr=" ++ noise_strength ++ ":nf=-25"))
      else Ret filters);
   (* Normalization *)
   en ← stage_option config "normalization" "enabled";
   filters ←
     (if truthy en then
        target_level ← stage_option config "normalization" "target_level";
        true_peak ← stage_option config "normalization" "true_peak";
        Ret (append filters ("loudnorm=I=" ++ py_format target_level ++ ":TP="
                               ++ py_format true_peak ++ ":LRA=7"))
      else Ret filters);
   (* Dynamic range compression *)
   en ← stage_option config "compression" "enabled";
   filters ←
     (if truthy en then
        threshold ← stage_option config "compression" "threshold";
        ratio ← stage_option config "compression" "ratio";
        attack ← stage_option config "compression" "attack";
        release ← stage_option config "compression" "release";
        Ret (append filters ("acompressor=threshold=" ++ py_format threshold
                               ++ "dB:ratio=" ++ py_format ratio
                               ++ ":attack=" ++ py_format attack
                               ++ ":release=" ++ py_format release))
      else Ret filters);
   (* Equalization *)
   en ← stage_option config "eq" "enabled";
   filters ←
     (if truthy en then
        preset ← stage_option config "eq" "preset";
        if equal_str preset "speech" then
          let filters := append filters "equalizer=f=100:width_type=h:width=200:g=-3" in
          let filters := append filters "equalizer=f=300:width_type=h:width=200:g=2" in
          let filters := append filters "equalizer=f=1500:width_type=h:width=1000:g=3" in
          let filters := append filters "equalizer=f=4000:width_type=h:width=1000:g=1" in
          let filters := append filters "equalizer=f=8000:width_type=h:width=2000:g=-2" in
          Ret filters
        else if equal_str preset "music" then
          let filters := append filters "equalizer=f=60:width_type=h:width=100:g=1" in
          let filters := append filters "equalizer=f=300:width_type=h:width=200:g=0" in
          let filters := append filters "equalizer=f=1500:width_type=h:width=1000:g=1" in
          let filters := append filters "equalizer=f=6000:width_type=h:width=2000:g=2" in
          Ret filters
        else Ret filters
      else Ret filters);
   (* Join all filters with commas *)
   match filters with
   | [] => Ret ""
   | _ => Ret (Py.join "," filters)
   end).

End Compiler.

(** *** The specification, read on documents *)

(** The value under [k], if [d] is a dict that has it. *)
Definition entry (d : value) (k : string) : option value :=
  match d with
  | PyDict items => lookup_str items k
  | _ => None
  end.

(** The value of an option, [None] standing for one that is not set. *)
Definition option_of (block : value) (key : string) : value :=
  default (Scalar PyNone) (entry block key).

Definition stage_block (doc : value) (stage : string) : value :=
  option_of (option_of doc "preprocessing") stage.

Definition is_enabled (doc : value) (stage : string) : bool :=
  truthy (option_of (stage_block doc stage) "enabled").

Definition has (block : value) (key : string) : bool :=
  match entry block key with Some _ => true | None => false end.

(** A stage is well formed when its block is a mapping with an [enabled]
    flag and, when enabled, with every option the stage reads. *)
Definition stage_conforms (doc : value) (stage : string) : bool :=
  let block := stage_block doc stage in
  has block "enabled"
  && (if truthy (option_of block "enabled")
      then forallb (has block) (stage_keys stage) else true).

Definition chain_conforms (doc : value) : bool :=
  forallb (stage_conforms doc) stage_order.

(** The strength of an enabled noise reduction can be looked up in the
    table of strengths: it is no list and no mapping. *)
Definition strength_hashable (doc : value) : bool :=
  if is_enabled doc "noise_reduction"
  then hashable (option_of (stage_block doc "noise_reduction") "strength")
  else true.

Definition is_mapping (v : value) : bool :=
  match v with PyDict _ => true | _ => false end.

Definition mapping_if_set (d : value) (k : string) : bool :=
  match entry d k with Some v => is_mapping v | None => true end.

(** The document is a mapping, so are its [preprocessing] block and its
    stage blocks where they are there, and the strength of the noise
    reduction can be hashed. *)
Definition mappings (doc : value) : bool :=
  is_mapping doc
  && mapping_if_set doc "preprocessing"
  && forallb (mapping_if_set (option_of doc "preprocessing")) stage_order
  && hashable (option_of (stage_block doc "noise_reduction") "strength").

Definition is_KeyError (e : exn) : bool :=
  match e with KeyError _ => true | _ => false end.

Definition is_TypeError (e : exn) : bool :=
  match e with TypeError _ => true | _ => false end.

(** Section 4.1, noise reduction: the reduction factor of a strength. *)
Definition reduction_factor (strength : value) : string :=
  if equal_str strength "low" then "0.2"
  else if equal_str strength "medium" then "0.4"
  else if equal_str strength "high" then "0.6"
  else "0.4".

Definition preset_bands (preset : value) : list string :=
  if equal_str preset "speech" then speech_bands
  else if equal_str preset "music" then music_bands
  else [].

Section Specification.

Context (float_repr : float -> string).
Context (container_str : value -> string).

Definition noise_reduction_stage (doc : value) : string :=
  "afftdn=nr=" ++ reduction_factor (option_of (stage_block doc "noise_reduction") "strength")
    ++ ":nf=-25".

Definition normalization_stage (doc : value) : string :=
  let block := stage_block doc "normalization" in
  "loudnorm=I=" ++ py_format float_repr container_str (option_of block "target_level")
    ++ ":TP=" ++ py_format float_repr container_str (option_of block "true_peak") ++ ":LRA=7".

Definition compression_stage (doc : value) : string :=
  let block := stage_block doc "compression" in
  "acompressor=threshold=" ++ py_format float_repr container_str (option_of block "threshold")
    ++ "dB:ratio=" ++ py_format float_repr container_str (option_of block "ratio")
    ++ ":attack=" ++ py_format float_repr container_str (option_of block "attack")
    ++ ":release=" ++ py_format float_repr container_str (option_of block "release").

(** The stage expressions a stage contributes when it is enabled. *)
Definition stage_filters (doc : value) (stage : string) : list string :=
  if String.eqb stage "noise_reduction" then [noise_reduction_stage doc]
  else if String.eqb stage "normalization" then [normalization_stage doc]
  else if String.eqb stage "compression" then [compression_stage doc]
  else if String.eqb stage "eq" then preset_bands (option_of (stage_block doc "eq") "preset")
  else [].

Definition enabled_filters (doc : value) (stage : string) : list string :=
  if is_enabled doc stage then stage_filters doc stage else [].

(** Section 4.1: the enabled stages, in the fixed order, comma-delimited. *)
Definition Compile (doc : value) : string :=
  Py.join "," (flat_map (enabled_filters doc) stage_order).

(** What [_build_filter_chain] may give on [doc]: the compiled chain of a
    well-formed document, or a [KeyError] or [TypeError] on one that is
    not, the latter only where something is no mapping or the strength
    cannot be hashed. *)
Definition outcome (doc : value) (r : result string) : Prop :=
  match r with
  | Ret s => chain_conforms doc && strength_hashable doc = true /\ s = Compile doc
  | Raise e =>
      chain_conforms doc && strength_hashable doc = false
      /\ is_KeyError e || is_TypeError e = true
      /\ (mappings doc = true -> is_KeyError e = true)
  end.

End Specification.

(** *** Writing documents *)

(** The items of a dict after [d[k] = x]. *)
Fixpoint set_str (items : list (value * value)) (k : string) (x : value)
  : list (value * value) :=
  match items with
  | [] => [(Scalar (PyStr k), x)]
  | (Scalar (PyStr s), v) :: items' =>
      if String.eqb s k then (Scalar (PyStr s), x) :: items'
      else (Scalar (PyStr s), v) :: set_str items' k x
  | item :: items' => item :: set_str items' k x
  end.

(** [d] after [d[k] = x]; what is not a dict is left as it is. *)
Definition setitem (d : value) (k : string) (x : value) : value :=
  match d with
  | PyDict items => PyDict (set_str items k x)
  | _ => d
  end.

(** [doc] with the strength of the noise reduction set to [v]. *)
Definition with_strength (doc : value) (v : value) : value :=
  setitem doc "preprocessing"
    (setitem (option_of doc "preprocessing") "noise_reduction"
       (setitem (stage_block doc "noise_reduction") "strength" v)).

(** A dict with string keys, as a document. *)
Definition of_block {V} (leaf : V -> value) (block : gmap string V) : value :=
  PyDict (map (fun '(k, v) => (Scalar (PyStr k), leaf v)) (map_to_list block)).

(** A configuration, as the document it is. *)
Definition of_config (cfg : config) : value :=
  PyDict [(Scalar (PyStr "output"), of_block Scalar (output cfg));
          (Scalar (PyStr "compression"), of_block Scalar (compression cfg));
          (Scalar (PyStr "preprocessing"), of_block (of_block Scalar) (preprocessing cfg))].

End Document.


(** ** Further samples *)

(** An engine that runs and exits with status 1. *)
Definition ffmpeg_fails (t : gmap (list string) kind) (cmd : list string) : outcome :=
  Exited 1 t.

(** An engine that answers [-version] and otherwise works as [ffmpeg_ok]. *)
Definition ffmpeg_installed (t : gmap (list string) kind) (cmd : list string) : outcome :=
  if bool_decide (cmd = ["ffmpeg"; "-version"]) then Exited 0 t else ffmpeg_ok t cmd.

Definition sample_session : session := Session (World sample_fs [] []) [] ∅.

(** The default configuration with a bitrate written as a number. *)
Definition numeric_bitrate_config : config :=
  Config (output default_config)
         (<["bitrate" := PyInt 128]> (compression default_config))
         (preprocessing default_config).

(** The default configuration with the compression switched off. *)
Definition uncompressed_config : config :=
  Config (output default_config)
         (<["enabled" := PyBool false]> (compression default_config))
         (preprocessing default_config).

(** A configuration with nothing but the output block. *)
Definition output_only_config : config := Config (output default_config) ∅ ∅.

(** A configuration without the output block. *)
Definition no_output_config : config :=
  Config ∅ (compression default_config) (preprocessing default_config).

(** Only the equalizer is enabled, with a preset the code does not know. *)
Definition custom_preset_config : config :=
  Config (output default_config) (compression default_config)
         (<["eq" := <["enabled" := PyBool true]> (<["preset" := PyStr "custom"]> ∅)]>
            (preprocessing all_disabled_config)).

(** The sample directory with [a_processed.wav] already there. *)
Definition skip_fs : gmap (list string) kind :=
  <[ ["processed_audio"; "a_processed.wav"] := File ]> sample_fs.

(** Only the noise reduction is there and enabled, with the strength a
    document gives it. *)
Definition strength_document (strength : Document.value) : Document.value :=
  let str s := Document.Scalar (PyStr s) in
  Document.PyDict
    [(str "preprocessing",
      Document.PyDict
        [(str "noise_reduction",
          Document.PyDict [(str "enabled", Document.Scalar (PyBool true));
                           (str "strength", strength)]);
         (str "normalization", Document.PyDict [(str "enabled", Document.Scalar (PyBool false))]);
         (str "compression", Document.PyDict [(str "enabled", Document.Scalar (PyBool false))]);
         (str "eq", Document.PyDict [(str "enabled", Document.Scalar (PyBool false))])])].

(** [strength: [low]] *)
Definition list_strength_document : Document.value :=
  strength_document (Document.PyList [Document.Scalar (PyStr "low")]).

(** [noise_reduction:] with nothing under it, which loads as [None]. *)
Definition null_stage_document : Document.value :=
  Document.PyDict
    [(Document.Scalar (PyStr "preprocessing"),
      Document.PyDict [(Document.Scalar (PyStr "noise_reduction"), Document.Scalar PyNone)])].

(** A [str] for lists and dicts, for the samples that format none. *)
Definition sample_container_str (v : Document.value) : string := "[...]".

(** ** The filter-chain compiler *)

(** Case analysis on a hypothesis [H] that says that a block is well
    formed: is the block enabled, and when it is, the options it then reads
    are there. *)
Ltac block_cases H block :=
  let en := fresh "en" in
  let Een := fresh "Een" in
  let T := fresh "T" in
  destruct (block !! "enabled") as [en|] eqn:Een; [|discriminate H];
  cbn [andb default from_option id] in H;
  destruct (truthy en) eqn:T;
  [ repeat match type of H with
           | context [ match ?m !! ?k with _ => _ end ] =>
               let E := fresh "E" in
               destruct (m !! k) eqn:E; cbn [andb] in H; [|discriminate H]
           end
  | ];
  clear H.

(** Rewrite with the lookups that are known, then evaluate the binds. *)
Ltac use_lookups :=
  cbn [default from_option id mbind result_bind Py.bind];
  repeat (match goal with
          | H : _ !! _ = _ |- _ => rewrite H
          | H : truthy _ = _ |- _ => rewrite H
          end;
          cbn [default from_option id mbind result_bind Py.bind]).

(** Evaluate the [try] block of [_process_single_file] on an argument
    list that is known, for each outcome of the engine. *)
Ltac run_engine engine :=
  cbn [negb app str_items str_of mbind result_bind Py.bind fs log calls];
  unfold try_except, subprocess_run; cbn [fs log calls];
  match goal with
  | |- context [ engine ?t ?cmd ] =>
      let rc := fresh "rc" in
      destruct (engine t cmd) as [rc ?|?]; [destruct (rc =? 0)%Z|]
  end;
  cbn [is_SubprocessError fs log calls]; rewrite <- ?app_assoc; reflexivity.

Section CompilerFacts.

Context (float_repr : float -> string).

Lemma get_strength_map (strength : scalar) :
  Py.get strength_map strength "0.4" = reduction_factor strength.
Proof.
  destruct strength as [| | | |s]; try reflexivity.
  unfold Py.get, strength_map, reduction_factor.
  destruct (String.eqb_spec s "low") as [->|Hl]; [reflexivity|].
  rewrite lookup_insert_ne by congruence.
  destruct (String.eqb_spec s "medium") as [->|Hm]; [reflexivity|].
  rewrite lookup_insert_ne by congruence.
  destruct (String.eqb_spec s "high") as [->|Hh]; [reflexivity|].
  rewrite lookup_insert_ne by congruence.
  reflexivity.
Qed.

Lemma eq_PyStr (v : scalar) (s : string) :
  Py.equal v (PyStr s) = match v with PyStr t => String.eqb t s | _ => false end.
Proof. destruct v; reflexivity. Qed.

(** The code computes the chain of the specification whenever the
    preprocessing block is well formed. *)
Lemma build_filter_chain_Compile (cfg : config) :
  chain_conforms cfg = true ->
  _build_filter_chain float_repr cfg = Ret (Compile float_repr cfg).
Proof.
  unfold chain_conforms, stage_order. cbn [forallb].
  rewrite !andb_true_iff. intros (Hnr & Hno & Hco & Heq & _).
  unfold stage_conforms in *.
  destruct (preprocessing cfg !! "noise_reduction") as [nr|] eqn:Enr; [|discriminate].
  destruct (preprocessing cfg !! "normalization") as [no|] eqn:Eno; [|discriminate].
  destruct (preprocessing cfg !! "compression") as [co|] eqn:Eco; [|discriminate].
  destruct (preprocessing cfg !! "eq") as [eq|] eqn:Eeq; [|discriminate].
  unfold Compile, stage_order, enabled_filters, is_enabled, stage_filters.
  unfold noise_reduction_stage, normalization_stage, compression_stage, stage_block.
  unfold _build_filter_chain, stage_option, getitem.
  cbn [flat_map String.eqb Ascii.eqb Bool.eqb]. rewrite Enr, Eno, Eco, Eeq.
  cbn [default from_option id mbind result_bind Py.bind].
  unfold has, option_of, stage_keys in *.
  cbn [String.eqb Ascii.eqb Bool.eqb forallb] in *.
  block_cases Hnr nr; block_cases Hno no; block_cases Hco co; block_cases Heq eq.
  all: use_lookups.
  all: rewrite ?get_strength_map, ?eq_PyStr.
  all: try reflexivity.
  all: match goal with |- context [ match ?v with PyStr _ => _ | _ => _ end ] =>
         destruct v as [| | | |preset]; try reflexivity end.
  all: unfold preset_bands.
  all: destruct (String.eqb preset "speech"); [reflexivity|].
  all: destruct (String.eqb preset "music"); reflexivity.
Qed.

Lemma enabled_filters_off (cfg : config) (stage : string) :
  is_enabled cfg stage = false -> enabled_filters float_repr cfg stage = [].
Proof. unfold enabled_filters. intros ->. reflexivity. Qed.

Lemma enabled_filters_on (cfg : config) (stage : string) :
  is_enabled cfg stage = true ->
  enabled_filters float_repr cfg stage = stage_filters float_repr cfg stage.
Proof. unfold enabled_filters. intros ->. reflexivity. Qed.

Lemma is_disabled_off (cfg : config) (stage : string) :
  is_disabled cfg stage = true -> is_enabled cfg stage = false.
Proof.
  unfold is_disabled, is_enabled, stage_block, option_of.
  destruct (preprocessing cfg !! stage) as [block|]; [|discriminate].
  cbn [default from_option id].
  destruct (block !! "enabled") as [en|]; [|discriminate].
  cbn [default from_option id]. destruct (truthy en); [discriminate|reflexivity].
Qed.

Lemma is_disabled_conforms (cfg : config) (stage : string) :
  is_disabled cfg stage = true -> stage_conforms cfg stage = true.
Proof.
  unfold is_disabled, stage_conforms, has, option_of.
  destruct (preprocessing cfg !! stage) as [block|]; [|discriminate].
  destruct (block !! "enabled") as [en|]; [|discriminate].
  cbn [default from_option id andb]. destruct (truthy en); [discriminate|reflexivity].
Qed.

(** C5. With several stages enabled the compiled expression is the
    comma-separated list of their stage expressions in the order noise
    reduction, normalization, dynamic-range compression, equalization,
    whatever the order in which the stages are written in the
    configuration document; with one stage enabled it is that stage's
    expression alone, with no separator before or after it. *)
Theorem C5_fixed_stage_order (cfg : config) :
  chain_conforms cfg = true ->
  _build_filter_chain float_repr cfg
  = Ret (Py.join ","
           (flat_map (enabled_filters float_repr cfg)
                     ["noise_reduction"; "normalization"; "compression"; "eq"]))
  /\ (forall doc doc' : list (string * gmap string scalar),
        NoDup doc.*1 -> doc ≡ₚ doc' ->
        _build_filter_chain float_repr (Config (output cfg) (compression cfg) (list_to_map doc))
        = _build_filter_chain float_repr (Config (output cfg) (compression cfg) (list_to_map doc')))
  /\ (is_enabled cfg "noise_reduction" = true -> is_enabled cfg "normalization" = false ->
      is_enabled cfg "compression" = false -> is_enabled cfg "eq" = false ->
      _build_filter_chain float_repr cfg = Ret (noise_reduction_stage cfg))
  /\ (is_enabled cfg "noise_reduction" = false -> is_enabled cfg "normalization" = true ->
      is_enabled cfg "compression" = false -> is_enabled cfg "eq" = false ->
      _build_filter_chain float_repr cfg = Ret (normalization_stage float_repr cfg))
  /\ (is_enabled cfg "noise_reduction" = false -> is_enabled cfg "normalization" = false ->
      is_enabled cfg "compression" = true -> is_enabled cfg "eq" = false ->
      _build_filter_chain float_repr cfg = Ret (compression_stage float_repr cfg))
  /\ (is_enabled cfg "noise_reduction" = false -> is_enabled cfg "normalization" = false ->
      is_enabled cfg "compression" = false -> is_enabled cfg "eq" = true ->
      _build_filter_chain float_repr cfg
      = Ret (Py.join "," (preset_bands (option_of (stage_block cfg "eq") "preset")))).
Proof.
  intros Hch. pose proof (build_filter_chain_Compile cfg Hch) as Hb.
  unfold Compile, stage_order in Hb. cbn [flat_map] in Hb.
  split; [exact Hb|]. split.
  { intros doc doc' Hnd Hp. by rewrite (list_to_map_proper doc doc' Hnd Hp). }
  repeat split; intros H1 H2 H3 H4; rewrite Hb.
  all: rewrite ?(enabled_filters_off _ _ H1), ?(enabled_filters_off _ _ H2),
         ?(enabled_filters_off _ _ H3), ?(enabled_filters_off _ _ H4).
  all: rewrite ?(enabled_filters_on _ _ H1), ?(enabled_filters_on _ _ H2),
         ?(enabled_filters_on _ _ H3), ?(enabled_filters_on _ _ H4).
  all: cbn [app]; rewrite ?app_nil_r; reflexivity.
Qed.

(** Setting the strength leaves every other option as it was. *)
Lemma build_filter_chain_strength (cfg : config) (v v' : scalar) :
  reduction_factor v = reduction_factor v' ->
  _build_filter_chain float_repr (with_strength cfg v)
  = _build_filter_chain float_repr (with_strength cfg v').
Proof.
  intros Hv. unfold _build_filter_chain, stage_option, getitem, with_strength.
  cbn [preprocessing].
  rewrite !lookup_insert_eq.
  rewrite !(lookup_insert_ne _ "noise_reduction") by discriminate.
  cbn [mbind result_bind Py.bind].
  rewrite !(lookup_insert_ne _ "strength" "enabled") by discriminate.
  rewrite !lookup_insert_eq.
  destruct (stage_block cfg "noise_reduction" !! "enabled") as [en|]; [|reflexivity].
  cbn [mbind result_bind Py.bind]. rewrite !get_strength_map, Hv. reflexivity.
Qed.

(** C9. With the equalizer enabled, preset "speech" adds five bands
    (100 Hz at -3 dB, 300 Hz at +2 dB, 1500 Hz at +3 dB, 4000 Hz at
    +1 dB, 8000 Hz at -2 dB), preset "music" adds four (one of them the
    300 Hz band at 0 dB), and any other preset adds none; compiling
    succeeds in each case. *)
Theorem C9_equalizer_presets (cfg : config) (preset : scalar) :
  chain_conforms cfg = true ->
  is_enabled cfg "eq" = true ->
  stage_block cfg "eq" !! "preset" = Some preset ->
  let earlier := flat_map (enabled_filters float_repr cfg)
                          ["noise_reduction"; "normalization"; "compression"] in
  (preset = PyStr "speech" ->
   _build_filter_chain float_repr cfg
   = Ret (Py.join "," (earlier ++ [band 100 200 (-3); band 300 200 2; band 1500 1000 3;
                                   band 4000 1000 1; band 8000 2000 (-2)])))
  /\ (preset = PyStr "music" ->
      _build_filter_chain float_repr cfg
      = Ret (Py.join "," (earlier ++ [band 60 100 1; band 300 200 0; band 1500 1000 1;
                                      band 6000 2000 2])))
  /\ (preset <> PyStr "speech" -> preset <> PyStr "music" ->
      _build_filter_chain float_repr cfg = Ret (Py.join "," earlier)).
Proof.
  intros Hch Hen Hp earlier.
  assert (Hb : _build_filter_chain float_repr cfg
               = Ret (Py.join "," (earlier ++ preset_bands preset))).
  { rewrite (build_filter_chain_Compile cfg Hch).
    unfold Compile, stage_order, earlier. cbn [flat_map].
    rewrite (enabled_filters_on _ _ Hen).
    unfold stage_filters. cbn [String.eqb Ascii.eqb Bool.eqb].
    unfold option_of. rewrite Hp. cbn [default from_option id].
    rewrite !app_nil_r, <- !app_assoc. reflexivity. }
  repeat split.
  - intros ->. exact Hb.
  - intros ->. exact Hb.
  - intros Hs Hm. rewrite Hb. destruct preset as [| | | |s]; rewrite ?app_nil_r; try reflexivity.
    unfold preset_bands.
    destruct (String.eqb_spec s "speech"); [congruence|].
    destruct (String.eqb_spec s "music"); [congruence|].
    rewrite app_nil_r. reflexivity.
Qed.

(** With every stage disabled the chain is empty. *)
Lemma build_filter_chain_empty (cfg : config) :
  forallb (is_disabled cfg) stage_order = true ->
  chain_conforms cfg = true /\ Compile float_repr cfg = ""
  /\ _build_filter_chain float_repr cfg = Ret "".
Proof.
  unfold stage_order. cbn [forallb]. rewrite !andb_true_iff.
  intros (H1 & H2 & H3 & H4 & _).
  assert (Hch : chain_conforms cfg = true).
  { unfold chain_conforms, stage_order. cbn [forallb].
    by rewrite !is_disabled_conforms. }
  assert (Hc : Compile float_repr cfg = "").
  { unfold Compile, stage_order. cbn [flat_map].
    by rewrite !enabled_filters_off by by apply is_disabled_off. }
  split; [exact Hch|]. split; [exact Hc|].
  by rewrite (build_filter_chain_Compile cfg Hch), Hc.
Qed.

End CompilerFacts.

(** ** Directory enumeration *)

Section Enumeration.

Lemma entry_name_spec (d q : Path) (n : string) :
  entry_name d q = Some n <-> q = (d ++ [n])%list.
Proof.
  revert q. induction d as [|c d IH]; intros q.
  - destruct q as [|a [|b q]]; cbn [entry_name app]; split; intros H;
      try discriminate H; congruence.
  - destruct q as [|c' q]; cbn [entry_name app]; [split; intros H; discriminate H|].
    destruct (String.eqb_spec c c') as [->|Hne].
    + rewrite IH. split; congruence.
    + split; [discriminate|]. intros H. congruence.
Qed.

Lemma elem_of_scandir (t : gmap (list string) kind) (d : Path) (n : string) :
  n ∈ scandir t d <-> is_Some (t !! (d ++ [n])%list).
Proof.
  unfold scandir. rewrite list_elem_of_omap. split.
  - intros (q & Hq & Hn). apply entry_name_spec in Hn as ->.
    apply list_elem_of_fmap in Hq as ([q k] & -> & Hq).
    apply elem_of_map_to_list in Hq. by exists k.
  - intros [k Hk]. exists (d ++ [n])%list. split; [|by apply entry_name_spec].
    apply list_elem_of_fmap. exists ((d ++ [n])%list, k).
    split; [reflexivity|]. by apply elem_of_map_to_list.
Qed.

Lemma NoDup_omap_entry_name (d : Path) (l : list Path) :
  NoDup l -> NoDup (omap (entry_name d) l).
Proof.
  induction 1 as [|q l Hq Hl IH]; cbn [omap list_omap]; [constructor|].
  destruct (entry_name d q) as [n|] eqn:En; [|exact IH].
  constructor; [|exact IH].
  rewrite list_elem_of_omap. intros (q' & Hq' & En').
  apply entry_name_spec in En, En'. congruence.
Qed.

Lemma NoDup_scandir (t : gmap (list string) kind) (d : Path) : NoDup (scandir t d).
Proof. apply NoDup_omap_entry_name, NoDup_fst_map_to_list. Qed.

(** A pattern of literal characters matches itself only. *)
Lemma fnmatch_literal (pat name : list ascii) :
  forallb literal pat = true -> fnmatch pat name = true <-> name = pat.
Proof.
  revert name. induction pat as [|c pat IH]; intros name Hl.
  - destruct name; cbn [fnmatch]; split; congruence.
  - cbn [forallb] in Hl. apply andb_true_iff in Hl as [Hc Hl].
    unfold literal in Hc. apply andb_true_iff in Hc as [Hs Hq].
    apply negb_true_iff in Hs, Hq. cbn [fnmatch]. rewrite Hs, Hq.
    destruct name as [|a name]; [split; discriminate|].
    cbn [orb]. rewrite andb_true_iff, (IH name Hl).
    destruct (Ascii.eqb_spec c a) as [->|Hne]; split.
    + intros [_ ->]. reflexivity.
    + intros H. injection H as ->. split; reflexivity.
    + intros [H _]. discriminate H.
    + intros H. injection H as -> _. contradiction.
Qed.

(** A star in front of literal characters matches the names that end with them. *)
Lemma fnmatch_star (pat name : list ascii) :
  forallb literal pat = true ->
  fnmatch ("*"%char :: pat) name = true <-> pat `suffix_of` name.
Proof.
  intros Hl. cbn [fnmatch Ascii.eqb Bool.eqb andb].
  induction name as [|a name IH].
  - rewrite orb_false_r, (fnmatch_literal pat [] Hl). split.
    + intros <-. reflexivity.
    + intros H. symmetry. by apply suffix_nil_inv.
  - rewrite orb_true_iff, (fnmatch_literal pat (a :: name) Hl), IH. split.
    + intros [<-|H]; [reflexivity|by apply suffix_cons_r].
    + intros [[|b k] Hk]; [left; exact Hk|right].
      injection Hk as _ ->. by exists k.
Qed.

Lemma list_ascii_of_string_app (a b : string) :
  list_ascii_of_string (a ++ b) = (list_ascii_of_string a ++ list_ascii_of_string b)%list.
Proof.
  induction a as [|c a IH]; [reflexivity|].
  change (String c a ++ b) with (String c (a ++ b)).
  cbn [list_ascii_of_string app]. by rewrite IH.
Qed.

Lemma string_of_list_ascii_app (k l : list ascii) :
  string_of_list_ascii (k ++ l) = string_of_list_ascii k ++ string_of_list_ascii l.
Proof.
  induction k as [|c k IH]; [reflexivity|].
  cbn [string_of_list_ascii app]. rewrite IH. reflexivity.
Qed.

Lemma has_extension_suffix (name ext : string) :
  has_extension name ext
  <-> list_ascii_of_string ext `suffix_of` list_ascii_of_string name.
Proof.
  split.
  - intros [front ->]. rewrite list_ascii_of_string_app. by eexists.
  - intros [k Hk]. exists (string_of_list_ascii k).
    rewrite <- (string_of_list_ascii_of_string name), Hk, string_of_list_ascii_app.
    by rewrite string_of_list_ascii_of_string.
Qed.

Lemma audio_extensions_literal (ext : string) :
  ext ∈ audio_extensions -> forallb literal (list_ascii_of_string ext) = true.
Proof.
  intros H. apply list_elem_of_In in H.
  assert (Hall : forallb (fun e => forallb literal (list_ascii_of_string e)) audio_extensions = true)
    by reflexivity.
  rewrite forallb_forall in Hall. by apply Hall.
Qed.

(** No extension of the list is the end of another one. *)
Lemma audio_extensions_exclusive (e1 e2 : string) :
  e1 ∈ audio_extensions -> e2 ∈ audio_extensions ->
  list_ascii_of_string e1 `suffix_of` list_ascii_of_string e2 -> e1 = e2.
Proof.
  intros H1 H2 Hs.
  assert (Hall : forallb (fun a => forallb (fun b =>
                   implb (bool_decide (list_ascii_of_string a `suffix_of` list_ascii_of_string b))
                         (String.eqb a b)) audio_extensions) audio_extensions = true)
    by (vm_compute; reflexivity).
  rewrite forallb_forall in Hall. apply list_elem_of_In in H1, H2.
  specialize (Hall e1 H1). rewrite forallb_forall in Hall. specialize (Hall e2 H2).
  rewrite (bool_decide_eq_true_2 _ Hs) in Hall. by apply String.eqb_eq.
Qed.

Lemma elem_of_glob_in (t : gmap (list string) kind) (d : Path) (ext : string) (p : Path) :
  ext ∈ audio_extensions ->
  p ∈ glob_in t d ("*" ++ ext)
  <-> exists name, p = (d ++ [name])%list /\ is_Some (t !! p) /\ has_extension name ext.
Proof.
  intros He. unfold glob_in. rewrite list_elem_of_fmap.
  change (list_ascii_of_string ("*" ++ ext)) with ("*"%char :: list_ascii_of_string ext).
  split.
  - intros (n & -> & Hn). apply list_elem_of_In, filter_In in Hn as [Hn Hm].
    apply list_elem_of_In, elem_of_scandir in Hn.
    apply fnmatch_star in Hm; [|by apply audio_extensions_literal].
    exists n. by rewrite has_extension_suffix.
  - intros (n & -> & Hn & Hx). exists n. split; [reflexivity|].
    apply list_elem_of_In, filter_In. split.
    + by apply list_elem_of_In, elem_of_scandir.
    + apply fnmatch_star; [by apply audio_extensions_literal|].
      by apply has_extension_suffix.
Qed.

Lemma NoDup_glob_in (t : gmap (list string) kind) (d : Path) (pattern : string) :
  NoDup (glob_in t d pattern).
Proof.
  unfold glob_in. apply NoDup_fmap_2.
  - intros a b H. apply app_inv_head in H. congruence.
  - apply NoDup_ListNoDup, List.NoDup_filter, NoDup_ListNoDup, NoDup_scandir.
Qed.

Lemma NoDup_flat_map {A B} (g : A -> list B) (l : list A) :
  NoDup l -> (forall a, NoDup (g a)) ->
  (forall a b x, a ∈ l -> b ∈ l -> x ∈ g a -> x ∈ g b -> a = b) ->
  NoDup (flat_map g l).
Proof.
  induction 1 as [|a l Ha Hl IH]; intros Hg Hx; cbn [flat_map]; [constructor|].
  apply NoDup_app. split; [apply Hg|]. split.
  - intros x Hxa Hxl. apply list_elem_of_In, in_flat_map in Hxl as (b & Hb & Hxb).
    apply list_elem_of_In in Hb, Hxb.
    assert (a = b) as -> by (eapply Hx; eauto; [left|by right]). contradiction.
  - apply IH; [exact Hg|]. intros b c x Hb Hc. apply Hx; by right.
Qed.

Lemma elem_of_audio_files (t : gmap (list string) kind) (d p : Path) :
  p ∈ audio_files t d
  <-> exists name ext, p = (d ++ [name])%list /\ is_Some (t !! p)
                       /\ ext ∈ audio_extensions /\ has_extension name ext.
Proof.
  unfold audio_files. rewrite list_elem_of_In, in_flat_map. split.
  - intros (ext & He & Hp). apply list_elem_of_In in He, Hp.
    apply (elem_of_glob_in t d ext p He) in Hp as (n & -> & Hn & Hx). by exists n, ext.
  - intros (n & ext & -> & Hn & He & Hx). exists ext.
    split; [by apply list_elem_of_In|].
    apply list_elem_of_In, elem_of_glob_in; [exact He|]. by exists n.
Qed.

Lemma NoDup_audio_files (t : gmap (list string) kind) (d : Path) : NoDup (audio_files t d).
Proof.
  unfold audio_files. apply NoDup_flat_map.
  - unfold audio_extensions. apply NoDup_ListNoDup.
    repeat (constructor; [cbn; intuition discriminate|]). constructor.
  - intros ext. apply NoDup_glob_in.
  - intros e1 e2 p H1 H2 Hp1 Hp2.
    apply (elem_of_glob_in t d e1 p H1) in Hp1 as (n & -> & _ & Hx1).
    apply (elem_of_glob_in t d e2 _ H2) in Hp2 as (n' & Hn & _ & Hx2).
    apply app_inv_head in Hn. injection Hn as <-.
    apply has_extension_suffix in Hx1, Hx2.
    destruct (suffix_weak_total _ _ _ Hx1 Hx2) as [H|H].
    + by apply audio_extensions_exclusive.
    + symmetry. by apply audio_extensions_exclusive.
Qed.

End Enumeration.

(** ** The per-file unit of work *)

Section DriverFacts.

Context (float_repr : float -> string).
Context (engine : gmap (list string) kind -> list string -> outcome).

(** When the file at the base-format path exists, the method stops there. *)
Lemma process_single_file_skip (cfg : config) (file : Path) (w : world) :
  output_conforms cfg = true ->
  is_Some (fs w !! base_path float_repr cfg file) ->
  _process_single_file float_repr engine cfg file w = skipped float_repr cfg file w.
Proof.
  unfold output_conforms, has_str, has. rewrite !andb_true_iff.
  intros [[Hd Hs] Hf] [k Hk]. destruct w as [t l c].
  unfold skipped, base_path, filename, output_directory, option_of in *.
  unfold _process_single_file, getitem, lift, exists_, logger, Path_of.
  destruct (output cfg !! "directory") as [[| | | |d]|] eqn:Ed; try discriminate Hd.
  destruct (output cfg !! "suffix") as [sfx|] eqn:Es; [|discriminate Hs].
  destruct (output cfg !! "format") as [fmt|] eqn:Ef; [|discriminate Hf].
  cbv [default from_option id fs] in Hk.
  cbv [default from_option id mbind M_bind mret M_ret fs log calls logged].
  rewrite Hk, <- app_assoc. reflexivity.
Qed.

(** Otherwise the engine is run on the command of the specification, and
    its outcome decides what is returned. *)
Lemma process_single_file_run (cfg : config) (file : Path) (w : world) :
  conforms cfg = true ->
  fs w !! base_path float_repr cfg file = None ->
  _process_single_file float_repr engine cfg file w
  = finished float_repr cfg file w (engine (fs w) (command float_repr cfg file)).
Proof.
  unfold conforms. rewrite !andb_true_iff. intros [[Ho Hc] Hch] Hk.
  apply (build_filter_chain_Compile float_repr) in Hch.
  unfold output_conforms, has_str, has in Ho. rewrite !andb_true_iff in Ho.
  destruct Ho as [[Hd Hs] Hf]. destruct w as [t l c].
  unfold finished, command, encoding_options, output_path, output_format.
  unfold base_path, filename, output_directory, option_of in *.
  unfold _process_single_file, getitem, lift, exists_, logger, Path_of.
  destruct (output cfg !! "directory") as [[| | | |d]|] eqn:Ed; try discriminate Hd.
  destruct (output cfg !! "suffix") as [sfx|] eqn:Es; [|discriminate Hs].
  destruct (output cfg !! "format") as [fmt|] eqn:Ef; [|discriminate Hf].
  cbv [default from_option id fs] in Hk.
  cbv [default from_option id mbind M_bind mret M_ret fs log calls logged].
  rewrite Hk, Hch.
  unfold compression_conforms, has_str, has, option_of in Hc.
  destruct (compression cfg !! "enabled") as [en|] eqn:Een; [|discriminate Hc].
  cbv [default from_option id andb] in Hc |- *.
  destruct (truthy en) eqn:T.
  - destruct (compression cfg !! "format") as [cf|] eqn:Ecf; [|discriminate Hc].
    destruct (compression cfg !! "codec") as [[| | | |codec]|] eqn:Eco; try discriminate Hc.
    destruct (compression cfg !! "bitrate") as [[| | | |bitrate]|] eqn:Ebr; try discriminate Hc.
    cbv [default from_option id andb].
    destruct (Py.equal cf fmt); destruct (String.eqb (Compile float_repr cfg) "").
    all: run_engine engine.
  - cbv [default from_option id andb].
    rewrite eq_PyStr.
    destruct (match fmt with PyStr t0 => String.eqb t0 "wav" | _ => false end);
      destruct (String.eqb (Compile float_repr cfg) "").
    all: run_engine engine.
Qed.

Lemma calls_finished (cfg : config) (file : Path) (w : world) (o : outcome) :
  calls (snd (finished float_repr cfg file w o)) = (calls w ++ [command float_repr cfg file])%list.
Proof.
  unfold finished. destruct o as [rc fs'|errno]; [destruct (rc =? 0)%Z|]; reflexivity.
Qed.

Lemma last_command (cfg : config) (file : Path) :
  List.last (command float_repr cfg file) "" = to_string (output_path float_repr cfg file).
Proof.
  unfold command.
  change ["-y"; to_string (output_path float_repr cfg file)]
    with (["-y"] ++ [to_string (output_path float_repr cfg file)])%list.
  rewrite !app_assoc. apply List.last_last.
Qed.

(** C2. The skip decision is taken on the path
    [<output_dir>/<stem><suffix>.<base output format>], the one computed
    before the compression format is looked at: a file there makes the
    method return it without running the engine, and without one the
    engine is run.  In particular, with compression enabled and a
    different format, a file that already exists at
    [<stem><suffix>.<compression format>], where the engine writes, does
    not stop the engine from being run again. *)
Theorem C2_skip_decided_on_base_path (cfg : config) (file : Path) (w : world) :
  conforms cfg = true ->
  let suffix := py_str float_repr (option_of (output cfg) "suffix") in
  let base := output_directory cfg
              // (stem file ++ suffix ++ "." ++ py_str float_repr (option_of (output cfg) "format")) in
  let compressed := output_directory cfg
                    // (stem file ++ suffix ++ "."
                          ++ py_str float_repr (option_of (compression cfg) "format")) in
  let r := _process_single_file float_repr engine cfg file w in
  (is_Some (fs w !! base) ->
   fst r = Ret (Some base) /\ calls (snd r) = calls w /\ fs (snd r) = fs w
   /\ log (snd r) = (log w ++ [Info_processing file; Info_skipping base])%list)
  /\ (fs w !! base = None ->
      exists cmd, calls (snd r) = (calls w ++ [cmd])%list)
  /\ (truthy (option_of (compression cfg) "enabled") = true ->
      Py.equal (option_of (compression cfg) "format") (option_of (output cfg) "format") = false ->
      is_Some (fs w !! compressed) -> fs w !! base = None ->
      exists cmd, calls (snd r) = (calls w ++ [cmd])%list
                  /\ List.last cmd "" = to_string compressed).
Proof.
  intros Hc suffix base compressed r.
  assert (Ho : output_conforms cfg = true).
  { unfold conforms in Hc. rewrite !andb_true_iff in Hc. tauto. }
  split; [|split].
  - intros Hk. subst r. rewrite (process_single_file_skip cfg file w Ho Hk).
    repeat split; reflexivity.
  - intros Hk. subst r. rewrite (process_single_file_run cfg file w Hc Hk).
    eexists. apply calls_finished.
  - intros Hen Hne _ Hk. subst r. rewrite (process_single_file_run cfg file w Hc Hk).
    eexists. split; [apply calls_finished|].
    rewrite last_command. unfold output_path, filename, output_format.
    rewrite Hen, Hne. reflexivity.
Qed.

(** C3. The file the engine is asked to produce is
    [<output_dir>/<stem><suffix>.<outputFormat>], where the output format
    is the compression format when compression is enabled and that
    format differs from the base one, and the base format otherwise; the
    method returns this path when the engine succeeds.  With stem "clip",
    suffix "_processed", base format "wav" and compression to "m4a" the
    name is "clip_processed.m4a". *)
Theorem C3_output_filename (cfg : config) (file : Path) (w : world) :
  conforms cfg = true ->
  fs w !! base_path float_repr cfg file = None ->
  let base := option_of (output cfg) "format" in
  let target := option_of (compression cfg) "format" in
  let outputFormat :=
    if truthy (option_of (compression cfg) "enabled") && negb (Py.equal target base)
    then target else base in
  let outputFilename :=
    stem file ++ py_str float_repr (option_of (output cfg) "suffix") ++ "."
      ++ py_str float_repr outputFormat in
  let r := _process_single_file float_repr engine cfg file w in
  (exists cmd,
      calls (snd r) = (calls w ++ [cmd])%list
      /\ List.last cmd "" = to_string (output_directory cfg // outputFilename)
      /\ forall fs', engine (fs w) cmd = Exited 0 fs' ->
                     fst r = Ret (Some (output_directory cfg // outputFilename)))
  /\ stem ["meetings"; "clip.wav"] = "clip"
  /\ fst (_process_single_file float_repr ffmpeg_ok default_config ["meetings"; "clip.wav"]
            (World ∅ [] []))
     = Ret (Some ["processed_audio"; "clip_processed.m4a"]).
Proof.
  intros Hc Hk base target outputFormat outputFilename r. split.
  - exists (command float_repr cfg file). subst r.
    rewrite (process_single_file_run cfg file w Hc Hk).
    split; [apply calls_finished|]. split; [apply last_command|].
    intros fs' ->. reflexivity.
  - split; [reflexivity|]. vm_compute. reflexivity.
Qed.

(** C8. The encoding options of the invocation: with compression enabled,
    the configured codec and bitrate; with compression disabled and base
    format "wav", 16-bit linear PCM; with compression disabled and any
    other base format, none. *)
Theorem C8_encoding_options (cfg : config) (file : Path) (w : world) :
  conforms cfg = true ->
  fs w !! base_path float_repr cfg file = None ->
  let r := _process_single_file float_repr engine cfg file w in
  exists options : list string,
    calls (snd r)
    = (calls w ++ [["ffmpeg"; "-i"; to_string file]
                     ++ (if String.eqb (Compile float_repr cfg) "" then []
                         else ["-filter_complex"; Compile float_repr cfg])
                     ++ options
                     ++ ["-y"; to_string (output_path float_repr cfg file)]])%list
    /\ (truthy (option_of (compression cfg) "enabled") = true ->
        exists codec bitrate,
          compression cfg !! "codec" = Some (PyStr codec)
          /\ compression cfg !! "bitrate" = Some (PyStr bitrate)
          /\ options = ["-c:a"; codec; "-b:a"; bitrate])
    /\ (truthy (option_of (compression cfg) "enabled") = false ->
        option_of (output cfg) "format" = PyStr "wav" ->
        options = ["-c:a"; "pcm_s16le"])
    /\ (truthy (option_of (compression cfg) "enabled") = false ->
        option_of (output cfg) "format" <> PyStr "wav" ->
        options = []).
Proof.
  intros Hc Hk r. exists (encoding_options cfg). subst r.
  rewrite (process_single_file_run cfg file w Hc Hk).
  split; [apply calls_finished|].
  unfold conforms in Hc. rewrite !andb_true_iff in Hc. destruct Hc as [[_ Hco] _].
  unfold compression_conforms, has, has_str in Hco. unfold encoding_options.
  split; [|split].
  - intros Hen. rewrite Hen in *. unfold option_of.
    destruct (compression cfg !! "enabled"); [|discriminate Hco].
    destruct (compression cfg !! "format"); [|discriminate Hco].
    destruct (compression cfg !! "codec") as [[| | | |codec]|]; try discriminate Hco.
    destruct (compression cfg !! "bitrate") as [[| | | |bitrate]|]; try discriminate Hco.
    exists codec, bitrate. repeat split; reflexivity.
  - intros Hen Hf. rewrite Hen, Hf. reflexivity.
  - intros Hen Hf. rewrite Hen, eq_PyStr.
    destruct (option_of (output cfg) "format") as [| | | |s]; try reflexivity.
    destruct (String.eqb_spec s "wav"); [congruence|reflexivity].
Qed.

(** C10. When all four stages are disabled the compiled chain is the
    empty string, and the engine is then invoked without any filter
    argument: the encoding options follow the input directly. *)
Theorem C10_empty_chain (cfg : config) (file : Path) (w : world) :
  forallb (is_disabled cfg) stage_order = true ->
  _build_filter_chain float_repr cfg = Ret ""
  /\ (output_conforms cfg = true -> compression_conforms cfg = true ->
      fs w !! base_path float_repr cfg file = None ->
      calls (snd (_process_single_file float_repr engine cfg file w))
      = (calls w ++ [["ffmpeg"; "-i"; to_string file] ++ encoding_options cfg
                       ++ ["-y"; to_string (output_path float_repr cfg file)]])%list).
Proof.
  intros Hd. destruct (build_filter_chain_empty float_repr cfg Hd) as (Hch & Hc & Hb).
  split; [exact Hb|]. intros Ho Hco Hk.
  rewrite process_single_file_run; [|unfold conforms; by rewrite Ho, Hco, Hch|exact Hk].
  rewrite calls_finished. unfold command. rewrite Hc. reflexivity.
Qed.

(** A non-zero exit status is reported with the file and gives [None]. *)
Lemma process_single_file_nonzero (cfg : config) (file : Path) (w : world) rc fs' :
  conforms cfg = true ->
  fs w !! base_path float_repr cfg file = None ->
  engine (fs w) (command float_repr cfg file) = Exited rc fs' ->
  rc <> 0%Z ->
  let cmd := command float_repr cfg file in
  _process_single_file float_repr engine cfg file w
  = (Ret None,
     World fs' (log w ++ [Info_processing file; Info_running cmd;
                          Error_processing file (CalledProcessError rc cmd)])%list
           (calls w ++ [cmd])%list).
Proof.
  intros Hc Hk He Hrc cmd. rewrite (process_single_file_run cfg file w Hc Hk), He.
  unfold finished. destruct (Z.eqb_spec rc 0); [contradiction|reflexivity].
Qed.

(** A child that cannot be started makes the method raise [OSError]. *)
Lemma process_single_file_not_started (cfg : config) (file : Path) (w : world) errno :
  conforms cfg = true ->
  fs w !! base_path float_repr cfg file = None ->
  engine (fs w) (command float_repr cfg file) = Not_started errno ->
  fst (_process_single_file float_repr engine cfg file w) = Raise (OSError errno).
Proof.
  intros Hc Hk He. rewrite (process_single_file_run cfg file w Hc Hk), He. reflexivity.
Qed.

(** The pool absorbs whatever its tasks raise. *)
Lemma run_pool_returns (cfg : config) (files : list Path) (w : world) :
  fst (run_pool float_repr engine cfg files w) = Ret tt.
Proof.
  revert w. induction files as [|file files IH]; intros w; [reflexivity|].
  cbn [run_pool]. unfold mbind, M_bind, try_except, mret, M_ret, logger.
  destruct (_process_single_file float_repr engine cfg file w) as [[a|e] w']; apply IH.
Qed.

(** After the first task, with or without an exception, the pool goes on
    with the other files. *)
Lemma run_pool_cons (cfg : config) (file : Path) (files : list Path) (w : world) :
  run_pool float_repr engine cfg (file :: files) w
  = run_pool float_repr engine cfg files
      (match _process_single_file float_repr engine cfg file w with
       | (Ret _, w') => w'
       | (Raise exc, w') => logged w' [Error_failed exc]
       end).
Proof.
  cbn [run_pool]. unfold mbind, M_bind, try_except, mret, M_ret, logger, logged.
  destruct (_process_single_file float_repr engine cfg file w) as [[a|e] w']; reflexivity.
Qed.

(** The loop over the extensions gathers the files of the specification. *)
Lemma collect_spec (d : Path) (exts : list string) (found : list Path) (w : world) :
  collect d exts found w
  = (Ret (found ++ flat_map (fun ext => glob_in (fs w) d ("*" ++ ext)) exts)%list, w).
Proof.
  revert found. induction exts as [|ext exts IH]; intros found.
  - cbn [collect flat_map]. by rewrite app_nil_r.
  - cbn [collect flat_map]. unfold mbind, M_bind, glob.
    rewrite IH, <- app_assoc. reflexivity.
Qed.

(** The batch call on a directory never raises. *)
Lemma process_audio_files_directory_returns (cfg : config) (input_path : string) (w : world) :
  fs w !! of_string input_path = Some Dir ->
  fst (process_audio_files float_repr engine cfg input_path w) = Ret tt.
Proof.
  intros Hd. unfold process_audio_files, is_file, is_dir, mbind, M_bind.
  cbv beta. rewrite Hd. cbv beta iota. rewrite Hd. cbv beta iota.
  rewrite collect_spec. cbn [app].
  destruct (flat_map _ audio_extensions); [reflexivity|].
  unfold logger. apply run_pool_returns.
Qed.

(** C6. For a directory, the tasks are exactly its immediate entries
    whose name ends with one of .wav, .mp3, .m4a, .aac, .ogg, .flac
    (compared case-sensitively), each once; a directory holding a.wav,
    b.mp3 and readme.txt gives two tasks; and with no such entry the
    driver logs a warning and returns. *)
Theorem C6_directory_enumeration (cfg : config) (input_path : string) (w : world) :
  let d := of_string input_path in
  fs w !! d = Some Dir ->
  let tasks := audio_files (fs w) d in
  (forall p, p ∈ tasks
             <-> exists name ext, p = (d ++ [name])%list /\ is_Some (fs w !! p)
                                  /\ ext ∈ [".wav"; ".mp3"; ".m4a"; ".aac"; ".ogg"; ".flac"]
                                  /\ has_extension name ext)
  /\ NoDup tasks
  /\ (tasks = [] ->
      process_audio_files float_repr engine cfg input_path w
      = (Ret tt, logged w [Warning_no_audio d]))
  /\ (tasks <> [] ->
      process_audio_files float_repr engine cfg input_path w
      = run_pool float_repr engine cfg tasks (logged w [Info_found (List.length tasks)]))
  /\ audio_files sample_fs ["rec"] = [["rec"; "a.wav"]; ["rec"; "b.mp3"]].
Proof.
  intros d Hd tasks. split; [apply elem_of_audio_files|].
  split; [apply NoDup_audio_files|].
  assert (Hrun : process_audio_files float_repr engine cfg input_path w
                 = match tasks with
                   | [] => (Ret tt, logged w [Warning_no_audio d])
                   | _ => run_pool float_repr engine cfg tasks
                            (logged w [Info_found (List.length tasks)])
                   end).
  { unfold process_audio_files, is_file, is_dir, mbind, M_bind. fold d.
    cbv beta. rewrite Hd. cbv beta iota. rewrite Hd. cbv beta iota.
    rewrite collect_spec. cbn [app].
    fold (audio_files (fs w) d). fold tasks.
    destruct tasks; reflexivity. }
  split; [|split].
  - intros Ht. rewrite Hrun, Ht. reflexivity.
  - intros Ht. rewrite Hrun. destruct tasks; [contradiction|reflexivity].
  - vm_compute. reflexivity.
Qed.

End DriverFacts.

(** ** Where the code departs from the specification *)

(** C1. Re-running the batch is not a no-op with the default
    configuration: the first run writes [a_processed.m4a] and
    [b_processed.m4a], the second run looks for [a_processed.wav] and
    [b_processed.wav], finds neither and invokes the engine for both
    files again. *)
Theorem C1_rerun_invokes_engine_again :
  let first := process_audio_files sample_repr ffmpeg_ok default_config "rec"
                 (World sample_fs [] []) in
  let second := process_audio_files sample_repr ffmpeg_ok default_config "rec"
                  (World (fs (snd first)) [] []) in
  fst first = Ret tt
  /\ output_path sample_repr default_config ["rec"; "a.wav"] = ["processed_audio"; "a_processed.m4a"]
  /\ output_path sample_repr default_config ["rec"; "b.mp3"] = ["processed_audio"; "b_processed.m4a"]
  /\ fs (snd first) !! ["processed_audio"; "a_processed.m4a"] = Some File
  /\ fs (snd first) !! ["processed_audio"; "b_processed.m4a"] = Some File
  /\ calls (snd second)
     = [command sample_repr default_config ["rec"; "a.wav"];
        command sample_repr default_config ["rec"; "b.mp3"]]
  /\ fst (_process_single_file sample_repr ffmpeg_ok default_config ["rec"; "a.wav"]
            (World (fs (snd first)) [] []))
     = Ret (Some ["processed_audio"; "a_processed.m4a"])
  /\ calls (snd (_process_single_file sample_repr ffmpeg_ok default_config ["rec"; "a.wav"]
                   (World (fs (snd first)) [] [])))
     = [command sample_repr default_config ["rec"; "a.wav"]].
Proof. vm_compute. repeat split; reflexivity. Qed.

(** C4. An engine that cannot be started makes [_process_single_file]
    raise [OSError]: no error naming the file is logged and nothing is
    returned.  Called on a single file, [process_audio_files] lets the
    exception through; called on a directory, it catches it per file and
    logs it without the file's name. *)
Theorem C4_launch_failure_raises :
  let w := World sample_fs [] [] in
  let a := ["rec"; "a.wav"] in
  let b := ["rec"; "b.mp3"] in
  _process_single_file sample_repr ffmpeg_missing default_config a w
  = (Raise (OSError 24),
     World sample_fs
           [Info_processing a; Info_running (command sample_repr default_config a)]
           [command sample_repr default_config a])
  /\ fst (process_audio_files sample_repr ffmpeg_missing default_config "rec/a.wav" w)
     = Raise (OSError 24)
  /\ fst (process_audio_files sample_repr ffmpeg_missing default_config "rec" w) = Ret tt
  /\ log (snd (process_audio_files sample_repr ffmpeg_missing default_config "rec" w))
     = [Info_found 2;
        Info_processing a; Info_running (command sample_repr default_config a);
        Error_failed (OSError 24);
        Info_processing b; Info_running (command sample_repr default_config b);
        Error_failed (OSError 24)].
Proof. vm_compute. repeat split; reflexivity. Qed.

(** C7, as stated, fails for a strength that is not set: reading it raises
    [KeyError], where the claim expects the chain of strength "medium". *)
Lemma C7_unset_strength_raises :
  _build_filter_chain sample_repr unset_strength_config = Raise (KeyError "strength")
  /\ _build_filter_chain sample_repr
       (with_strength unset_strength_config (PyStr "medium"))
     = Ret "afftdn=nr=0.4:nf=-25".
Proof. vm_compute. split; reflexivity. Qed.

(** ** The theorems at work on the sample configurations *)

Lemma C2_skip_decided_on_base_path_witness :
  exists cmd,
    calls (snd (_process_single_file sample_repr ffmpeg_ok default_config ["rec"; "a.wav"]
                  (World rerun_fs [] []))) = [cmd]
    /\ List.last cmd "" = "processed_audio/a_processed.m4a".
Proof.
  apply (proj2 (proj2 (C2_skip_decided_on_base_path sample_repr ffmpeg_ok default_config
                         ["rec"; "a.wav"] (World rerun_fs [] []) eq_refl))).
  - reflexivity.
  - reflexivity.
  - exists File. vm_compute. reflexivity.
  - vm_compute. reflexivity.
Defined.

Lemma C3_output_filename_witness :
  exists cmd,
    calls (snd (_process_single_file sample_repr ffmpeg_ok default_config ["meetings"; "clip.wav"]
                  (World sample_fs [] []))) = [cmd]
    /\ List.last cmd "" = "processed_audio/clip_processed.m4a".
Proof.
  destruct (proj1 (C3_output_filename sample_repr ffmpeg_ok default_config
                     ["meetings"; "clip.wav"] (World sample_fs [] []) eq_refl eq_refl))
    as (cmd & Hcalls & Hlast & _).
  exists cmd. split; [exact Hcalls|exact Hlast].
Defined.

Lemma C5_fixed_stage_order_witness :
  _build_filter_chain sample_repr default_config
  = Ret "afftdn=nr=0.4:nf=-25,loudnorm=I=-16:TP=-1.5:LRA=7"
  /\ _build_filter_chain sample_repr null_strength_config = Ret "afftdn=nr=0.4:nf=-25".
Proof.
  split.
  - exact (proj1 (C5_fixed_stage_order sample_repr default_config eq_refl)).
  - apply (C5_fixed_stage_order sample_repr null_strength_config eq_refl); reflexivity.
Defined.

Lemma C6_directory_enumeration_witness :
  process_audio_files sample_repr ffmpeg_ok default_config "rec" (World sample_fs [] [])
  = run_pool sample_repr ffmpeg_ok default_config [["rec"; "a.wav"]; ["rec"; "b.mp3"]]
      (World sample_fs [Info_found 2] []).
Proof.
  apply (C6_directory_enumeration sample_repr ffmpeg_ok default_config "rec"
           (World sample_fs [] []) eq_refl).
  vm_compute. discriminate.
Defined.

Lemma C8_encoding_options_witness :
  exists options,
    calls (snd (_process_single_file sample_repr ffmpeg_ok default_config ["rec"; "a.wav"]
                  (World sample_fs [] [])))
    = [(["ffmpeg"; "-i"; "rec/a.wav"; "-filter_complex";
         "afftdn=nr=0.4:nf=-25,loudnorm=I=-16:TP=-1.5:LRA=7"]
          ++ options ++ ["-y"; "processed_audio/a_processed.m4a"])%list]
    /\ options = ["-c:a"; "aac"; "-b:a"; "128k"].
Proof.
  destruct (C8_encoding_options sample_repr ffmpeg_ok default_config ["rec"; "a.wav"]
              (World sample_fs [] []) eq_refl eq_refl)
    as (options & Hcalls & Hon & _).
  exists options. split; [exact Hcalls|].
  destruct (Hon eq_refl) as (codec & bitrate & Hc & Hb & ->).
  vm_compute in Hc, Hb. injection Hc as <-. injection Hb as <-. reflexivity.
Defined.

Lemma C9_equalizer_presets_witness :
  _build_filter_chain sample_repr speech_config
  = Ret ("afftdn=nr=0.4:nf=-25,loudnorm=I=-16:TP=-1.5:LRA=7,"
           ++ "equalizer=f=100:width_type=h:width=200:g=-3,"
           ++ "equalizer=f=300:width_type=h:width=200:g=2,"
           ++ "equalizer=f=1500:width_type=h:width=1000:g=3,"
           ++ "equalizer=f=4000:width_type=h:width=1000:g=1,"
           ++ "equalizer=f=8000:width_type=h:width=2000:g=-2").
Proof.
  exact (proj1 (C9_equalizer_presets sample_repr speech_config (PyStr "speech")
                  eq_refl eq_refl eq_refl) eq_refl).
Defined.

Lemma C10_empty_chain_witness :
  _build_filter_chain sample_repr all_disabled_config = Ret ""
  /\ calls (snd (_process_single_file sample_repr ffmpeg_ok all_disabled_config ["rec"; "a.wav"]
                   (World sample_fs [] [])))
     = [["ffmpeg"; "-i"; "rec/a.wav"; "-c:a"; "aac"; "-b:a"; "128k"; "-y";
         "processed_audio/a_processed.m4a"]].
Proof.
  destruct (C10_empty_chain sample_repr ffmpeg_ok all_disabled_config ["rec"; "a.wav"]
              (World sample_fs [] []) eq_refl) as [Hb Hcalls].
  split; [exact Hb|]. exact (Hcalls eq_refl eq_refl eq_refl).
Defined.

(** ** More on the filter-chain compiler *)

(** The computation a chain of binds starts with. *)
Ltac head_of t :=
  lazymatch t with
  | mbind _ ?m => head_of m
  | Py.bind ?m _ => head_of m
  | _ => t
  end.

(** One step along a chain of binds that is known to return. *)
Ltac step_in H :=
  lazymatch type of H with
  | ?X = _ =>
      let h := head_of X in
      lazymatch h with
      | match ?m !! ?k with _ => _ end =>
          destruct (m !! k) eqn:?;
          cbn [mbind result_bind Py.bind default from_option id andb] in H |- *;
          [|discriminate H]
      | if truthy ?v then _ else _ =>
          destruct (truthy v) eqn:?;
          cbn [mbind result_bind Py.bind default from_option id andb] in H |- *
      end
  end.

Section MoreCompilerFacts.

Context (float_repr : float -> string).

Lemma only_KeyError_bind {A B} (m : result A) (k : A -> result B) :
  only_KeyError m -> (forall a, only_KeyError (k a)) -> only_KeyError (m ≫= k).
Proof. destruct m as [a|e]; cbn; auto. Qed.

Lemma only_KeyError_getitem {V} (d : gmap string V) (k : string) : only_KeyError (getitem d k).
Proof. unfold getitem. destruct (d !! k); cbn; eauto. Qed.

Lemma only_KeyError_stage_option cfg stage key : only_KeyError (stage_option cfg stage key).
Proof.
  unfold stage_option. apply only_KeyError_bind; [apply only_KeyError_getitem|].
  intros s. apply only_KeyError_getitem.
Qed.

Lemma build_only_KeyError (cfg : config) : only_KeyError (_build_filter_chain float_repr cfg).
Proof.
  unfold _build_filter_chain.
  repeat first
    [ apply only_KeyError_bind; [|intros ?]
    | apply only_KeyError_stage_option
    | match goal with |- only_KeyError (if ?b then _ else _) => destruct b end
    | match goal with |- only_KeyError (match ?l with [] => _ | _ => _ end) => destruct l end
    | apply only_KeyError_getitem
    | exact I ].
Qed.

Lemma build_returns_conforms (cfg : config) (s : string) :
  _build_filter_chain float_repr cfg = Ret s -> chain_conforms cfg = true.
Proof.
  unfold _build_filter_chain, stage_option, getitem, chain_conforms, stage_order.
  unfold stage_conforms, has, option_of, stage_keys.
  cbn [forallb String.eqb Ascii.eqb Bool.eqb].
  intros H. cbn [mbind result_bind Py.bind] in H.
  repeat step_in H.
  all: reflexivity.
Qed.

(** On a configuration, whose blocks are mappings with scalar leaves, the
    method returns exactly when the configuration sets what the enabled
    stages read, and the only exception is [KeyError]. *)
Lemma build_filter_chain_returns_or_KeyError (cfg : config) :
  match _build_filter_chain float_repr cfg with
  | Ret s => chain_conforms cfg = true /\ s = Compile float_repr cfg
  | Raise e => chain_conforms cfg = false /\ exists k, e = KeyError k
  end.
Proof.
  pose proof (build_only_KeyError cfg) as Hk.
  destruct (_build_filter_chain float_repr cfg) as [s|e] eqn:Hb.
  - pose proof (build_returns_conforms cfg s Hb) as Hc. split; [exact Hc|].
    rewrite (build_filter_chain_Compile float_repr cfg Hc) in Hb. congruence.
  - split; [|exact Hk].
    destruct (chain_conforms cfg) eqn:Hc; [|reflexivity].
    rewrite (build_filter_chain_Compile float_repr cfg Hc) in Hb. discriminate Hb.
Qed.

Lemma bind_ext {A B} (m m' : result A) (k k' : A -> result B) :
  m = m' -> (forall a, m' = Ret a -> k a = k' a) -> m ≫= k = m' ≫= k'.
Proof. intros <- H. destruct m as [a|e]; cbn; auto. Qed.

Lemma stage_option_with_option cfg stage key v t k :
  is_Some (preprocessing cfg !! stage) ->
  t <> stage \/ k <> key ->
  stage_option (with_option cfg stage key v) t k = stage_option cfg t k.
Proof.
  intros [b Hb] Hne. unfold stage_option, with_option, stage_block, getitem.
  cbn [preprocessing]. rewrite Hb. cbn [default from_option id].
  destruct (decide (t = stage)) as [->|Ht].
  - rewrite lookup_insert_eq, Hb. cbn [mbind result_bind Py.bind].
    destruct Hne as [Hne|Hne]; [contradiction|].
    rewrite lookup_insert_ne by congruence. reflexivity.
  - rewrite lookup_insert_ne by congruence. reflexivity.
Qed.

Lemma is_disabled_enabled cfg stage en :
  is_disabled cfg stage = true ->
  stage_option cfg stage "enabled" = Ret en -> truthy en = false.
Proof.
  unfold is_disabled, stage_option, getitem.
  destruct (preprocessing cfg !! stage) as [b|]; [|discriminate].
  cbn [mbind result_bind Py.bind].
  destruct (b !! "enabled") as [en'|]; [|discriminate].
  intros H [= <-]. by apply negb_true_iff.
Qed.

Lemma is_disabled_block cfg stage :
  is_disabled cfg stage = true -> is_Some (preprocessing cfg !! stage).
Proof. unfold is_disabled. destruct (preprocessing cfg !! stage); [eauto|discriminate]. Qed.

(** X2. The options of a disabled stage are never read: setting any of
    them, other than [enabled], to any value leaves the result of
    [_build_filter_chain] as it was. *)
Theorem X2_disabled_options_not_read (cfg : config) (stage key : string) (v : scalar) :
  is_disabled cfg stage = true ->
  key <> "enabled" ->
  _build_filter_chain float_repr (with_option cfg stage key v)
  = _build_filter_chain float_repr cfg.
Proof.
  intros Hd Hk. pose proof (is_disabled_block cfg stage Hd) as Hb.
  assert (Hen : forall t, stage_option (with_option cfg stage key v) t "enabled"
                          = stage_option cfg t "enabled").
  { intros t. apply stage_option_with_option; [exact Hb|right; congruence]. }
  assert (Hon : forall t k en, stage_option cfg t "enabled" = Ret en -> truthy en = true ->
                               stage_option (with_option cfg stage key v) t k
                               = stage_option cfg t k).
  { intros t k en He Ht. apply stage_option_with_option; [exact Hb|left].
    intros ->. rewrite (is_disabled_enabled cfg stage en Hd He) in Ht. discriminate Ht. }
  unfold _build_filter_chain.
  repeat (apply bind_ext; [apply Hen|]; intros ? ?;
          apply bind_ext;
          [ match goal with
            | |- (if truthy ?en then _ else _) = _ =>
                destruct (truthy en) eqn:?; [|reflexivity];
                rewrite ?(Hon _ _ en) by assumption; reflexivity
            end
          | intros ? _ ]).
  reflexivity.
Qed.

Lemma append_nonempty (c : ascii) (s t : string) : String c s ++ t <> "".
Proof. change (String c s ++ t) with (String c (s ++ t)). discriminate. Qed.

Lemma join_empty (l : list string) :
  Forall (fun s => s <> "") l -> Py.join "," l = "" -> l = [].
Proof.
  unfold Py.join. destruct l as [|x [|y l]]; [reflexivity| |]; intros Hl H.
  - cbn in H. apply Forall_cons in Hl as [Hx _]. contradiction.
  - exfalso. cbn [String.concat] in H. apply Forall_cons in Hl as [Hx _].
    destruct x as [|c x]; [contradiction|]. by apply append_nonempty in H.
Qed.

Lemma preset_bands_nonempty (preset : scalar) : Forall (fun s => s <> "") (preset_bands preset).
Proof.
  destruct preset as [| | | |p]; try constructor. unfold preset_bands.
  destruct (String.eqb p "speech"); [|destruct (String.eqb p "music")].
  - unfold speech_bands, band. repeat (constructor; [apply append_nonempty|]). constructor.
  - unfold music_bands, band. repeat (constructor; [apply append_nonempty|]). constructor.
  - constructor.
Qed.

Lemma enabled_filters_nonempty (cfg : config) (stage : string) :
  Forall (fun s => s <> "") (enabled_filters float_repr cfg stage).
Proof.
  unfold enabled_filters. destruct (is_enabled cfg stage); [|constructor].
  unfold stage_filters.
  destruct (String.eqb stage "noise_reduction");
    [repeat constructor; apply append_nonempty|].
  destruct (String.eqb stage "normalization");
    [repeat constructor; apply append_nonempty|].
  destruct (String.eqb stage "compression");
    [repeat constructor; apply append_nonempty|].
  destruct (String.eqb stage "eq"); [apply preset_bands_nonempty|constructor].
Qed.

(** X3. The compiled chain is the empty string exactly when noise
    reduction, normalization and compression are disabled and the
    equalizer is disabled or has a preset other than "speech" and "music". *)
Theorem X3_when_the_chain_is_empty (cfg : config) :
  chain_conforms cfg = true ->
  _build_filter_chain float_repr cfg = Ret ""
  <-> is_enabled cfg "noise_reduction" = false
      /\ is_enabled cfg "normalization" = false
      /\ is_enabled cfg "compression" = false
      /\ (is_enabled cfg "eq" = false
          \/ preset_bands (option_of (stage_block cfg "eq") "preset") = []).
Proof.
  intros Hch. rewrite (build_filter_chain_Compile float_repr cfg Hch).
  unfold Compile, stage_order. cbn [flat_map]. rewrite app_nil_r. split.
  - intros [= H]. apply join_empty in H.
    + apply app_eq_nil in H as [H1 H]. apply app_eq_nil in H as [H2 H].
      apply app_eq_nil in H as [H3 H4]. unfold enabled_filters in *.
      destruct (is_enabled cfg "noise_reduction"); [discriminate H1|].
      destruct (is_enabled cfg "normalization"); [discriminate H2|].
      destruct (is_enabled cfg "compression"); [discriminate H3|].
      destruct (is_enabled cfg "eq"); auto.
    + rewrite !Forall_app. repeat split; apply enabled_filters_nonempty.
  - intros (H1 & H2 & H3 & H4). unfold enabled_filters. rewrite H1, H2, H3.
    destruct H4 as [-> | H4]; [reflexivity|].
    destruct (is_enabled cfg "eq"); [|reflexivity].
    unfold stage_filters. cbn [String.eqb Ascii.eqb Bool.eqb]. rewrite H4. reflexivity.
Qed.
End MoreCompilerFacts.

(** ** More on the driver *)

Section MoreDriverFacts.

Context (float_repr : float -> string).
Context (engine : gmap (list string) kind -> list string -> outcome).

Lemma grows_le {A} (n n' : nat) (m : M A) : grows n m -> (n <= n')%nat -> grows n' m.
Proof.
  intros H Hle w. destruct (H w) as (evs & cs & Hl & Hc & Hn & Hf).
  exists evs, cs. repeat split; auto. lia.
Qed.

Lemma grows_pure {A} (f : world -> result A) : grows 0 (fun w => (f w, w)).
Proof. intros w. exists [], []. cbn. rewrite !app_nil_r. auto. Qed.

Lemma grows_lift {A} (r : result A) : grows 0 (lift r).
Proof. apply (grows_pure (fun _ => r)). Qed.

Lemma grows_mret {A} (a : A) : grows 0 (mret a : M A).
Proof. apply (grows_pure (fun _ => Ret a)). Qed.

Lemma grows_logger (ev : event) : grows 0 (logger ev).
Proof. intros w. exists [ev], []. cbn. rewrite app_nil_r. auto. Qed.

Lemma grows_subprocess_run (cmd : list string) : grows 1 (subprocess_run engine cmd).
Proof.
  intros w. exists [], [cmd]. unfold subprocess_run.
  destruct (engine (fs w) cmd) as [rc fs'|errno]; [destruct (rc =? 0)%Z|];
    cbn; rewrite app_nil_r; repeat split; auto; discriminate.
Qed.

Lemma grows_bind {A B} (n k : nat) (m : M A) (f : A -> M B) :
  grows n m -> (forall a, grows k (f a)) -> grows (n + k) (m ≫= f).
Proof.
  intros Hm Hf w. unfold mbind, M_bind.
  destruct (Hm w) as (evs & cs & Hl & Hc & Hn & Hfs).
  destruct (m w) as [[a|e] w1]; cbn [snd] in *.
  - destruct (Hf a w1) as (evs' & cs' & Hl' & Hc' & Hn' & Hfs').
    exists (evs ++ evs')%list, (cs ++ cs')%list.
    rewrite Hl', Hl, Hc', Hc, !app_assoc, length_app. repeat split; [lia|].
    intros H. apply app_eq_nil in H as [-> ->]. rewrite Hfs', Hfs; reflexivity.
  - exists evs, cs. repeat split; auto. lia.
Qed.

Lemma grows_try_except {A} (n k : nat) (body : M A) handles (handler : exn -> M A) :
  grows n body -> (forall e, grows k (handler e)) -> grows (n + k) (try_except body handles handler).
Proof.
  intros Hm Hf w. unfold try_except.
  destruct (Hm w) as (evs & cs & Hl & Hc & Hn & Hfs).
  destruct (body w) as [[a|e] w1]; cbn [snd] in *.
  - exists evs, cs. repeat split; auto. lia.
  - destruct (handles e).
    + destruct (Hf e w1) as (evs' & cs' & Hl' & Hc' & Hn' & Hfs').
      exists (evs ++ evs')%list, (cs ++ cs')%list.
      rewrite Hl', Hl, Hc', Hc, !app_assoc, length_app. repeat split; [lia|].
      intros H. apply app_eq_nil in H as [-> ->]. rewrite Hfs', Hfs; reflexivity.
    + exists evs, cs. repeat split; auto. lia.
Qed.

Lemma grows_if {A} (n k : nat) (b : bool) (m m' : M A) :
  grows n m -> grows k m' -> grows (Nat.max n k) (if b then m else m').
Proof. intros H H'. destruct b; eapply grows_le; eauto; lia. Qed.

(** One rule of [grows], by the shape of the computation. *)
Ltac grows_step :=
  first
    [ apply grows_lift | apply grows_mret | apply grows_logger
    | apply grows_subprocess_run
    | apply (grows_pure (fun w => Ret _))
    | eapply grows_bind; [|intros ?]
    | eapply grows_try_except; [|intros ?]
    | eapply grows_if
    | match goal with |- grows _ (let '(_, _) := ?p in _) => destruct p end ].

Lemma grows_process_single_file (cfg : config) (file : Path) :
  grows 1 (_process_single_file float_repr engine cfg file).
Proof.
  eapply grows_le.
  - unfold _process_single_file, exists_. repeat grows_step.
  - cbn. lia.
Qed.

Lemma grows_run_pool (cfg : config) (files : list Path) :
  grows (List.length files) (run_pool float_repr engine cfg files).
Proof.
  induction files as [|file files IH]; cbn [run_pool List.length].
  - apply grows_mret.
  - change (S (List.length files)) with ((1 + 0 + 0) + List.length files)%nat.
    eapply grows_bind; [|intros ?; exact IH].
    eapply grows_try_except; [|intros ?; apply grows_logger].
    eapply grows_bind; [apply grows_process_single_file|intros ?; apply grows_mret].
Qed.

Lemma process_audio_files_directory (cfg : config) (input_path : string) (w : world) :
  fs w !! of_string input_path = Some Dir ->
  process_audio_files float_repr engine cfg input_path w
  = match audio_files (fs w) (of_string input_path) with
    | [] => (Ret tt, logged w [Warning_no_audio (of_string input_path)])
    | tasks => run_pool float_repr engine cfg tasks (logged w [Info_found (List.length tasks)])
    end.
Proof.
  intros Hd. unfold process_audio_files, is_file, is_dir, mbind, M_bind.
  cbv beta. rewrite Hd. cbv beta iota. rewrite Hd. cbv beta iota.
  rewrite collect_spec. cbn [app]. fold (audio_files (fs w) (of_string input_path)).
  destruct (audio_files (fs w) (of_string input_path)); reflexivity.
Qed.

Lemma process_audio_files_file (cfg : config) (input_path : string) (w : world) :
  fs w !! of_string input_path = Some File ->
  process_audio_files float_repr engine cfg input_path w
  = (_ ← _process_single_file float_repr engine cfg (of_string input_path); mret tt) w.
Proof.
  intros Hd. unfold process_audio_files, is_file. unfold mbind at 1, M_bind at 1.
  cbv beta. rewrite Hd. reflexivity.
Qed.

Lemma process_audio_files_other (cfg : config) (input_path : string) (w : world) :
  fs w !! of_string input_path = None ->
  process_audio_files float_repr engine cfg input_path w
  = (Ret tt, logged w [Error_no_input (of_string input_path)]).
Proof.
  intros Hd. unfold process_audio_files, is_file, is_dir, mbind, M_bind.
  cbv beta. rewrite Hd. cbv beta iota. rewrite Hd. reflexivity.
Qed.

(** X11. [process_audio_files] runs the engine at most once for a file, at
    most once per selected entry for a directory and not at all for a path
    that does not exist; without an engine run the file system stays as it
    was. *)
Theorem X11_one_invocation_per_file (cfg : config) (input_path : string) (w : world) :
  let r := process_audio_files float_repr engine cfg input_path w in
  let bound := match fs w !! of_string input_path with
               | Some File => 1%nat
               | Some Dir => List.length (audio_files (fs w) (of_string input_path))
               | None => 0%nat
               end in
  exists cs, calls (snd r) = (calls w ++ cs)%list
             /\ (List.length cs <= bound)%nat
             /\ (cs = [] -> fs (snd r) = fs w).
Proof.
  intros r bound. subst r bound.
  destruct (fs w !! of_string input_path) as [[|]|] eqn:Hd.
  - rewrite (process_audio_files_file cfg input_path w Hd).
    assert (H : grows (1 + 0) (_ ← _process_single_file float_repr engine cfg (of_string input_path);
                               mret tt)).
    { eapply grows_bind; [apply grows_process_single_file|intros ?; apply grows_mret]. }
    destruct (H w) as (evs & cs & _ & Hc & Hn & Hf). exists cs. auto.
  - rewrite (process_audio_files_directory cfg input_path w Hd).
    destruct (audio_files (fs w) (of_string input_path)) as [|t ts] eqn:Ht.
    + exists []. cbn. rewrite app_nil_r. auto.
    + destruct (grows_run_pool cfg (t :: ts) (logged w [Info_found (List.length (t :: ts))]))
        as (evs & cs & _ & Hc & Hn & Hf).
      exists cs. auto.
  - rewrite (process_audio_files_other cfg input_path w Hd).
    exists []. cbn. rewrite app_nil_r. auto.
Qed.

(** X12. [process_audio_files] returns normally whenever the input path is
    not a regular file: only the single-file call can raise. *)
Theorem X12_raises_only_for_a_single_file (cfg : config) (input_path : string) (w : world) :
  fs w !! of_string input_path <> Some File ->
  fst (process_audio_files float_repr engine cfg input_path w) = Ret tt.
Proof.
  intros Hf. destruct (fs w !! of_string input_path) as [[|]|] eqn:Hd.
  - contradiction.
  - by apply process_audio_files_directory_returns.
  - by rewrite (process_audio_files_other cfg input_path w Hd).
Qed.

(** X7. Whatever the configuration, one call of [_process_single_file]
    only appends to the log, runs the engine at most once, and leaves the
    file system as it was unless it ran the engine. *)
Theorem X7_at_most_one_invocation (cfg : config) (file : Path) (w : world) :
  let r := _process_single_file float_repr engine cfg file w in
  exists evs cs,
    log (snd r) = (log w ++ evs)%list
    /\ calls (snd r) = (calls w ++ cs)%list
    /\ (List.length cs <= 1)%nat
    /\ (cs = [] -> fs (snd r) = fs w).
Proof. exact (grows_process_single_file cfg file w). Qed.

(** X4. When the output block lacks [directory], [suffix] or [format], or
    [directory] is not a string, [_process_single_file] raises before it
    logs or runs anything, and not a [SubprocessError]. *)
Theorem X4_unusable_output_block (cfg : config) (file : Path) (w : world) :
  output_conforms cfg = false ->
  exists e, _process_single_file float_repr engine cfg file w = (Raise e, w)
            /\ is_SubprocessError e = false.
Proof.
  unfold output_conforms, has_str, has.
  unfold _process_single_file, getitem, lift, Path_of, mbind, M_bind.
  destruct (output cfg !! "directory") as [[| | | |d]|]; intros H;
    try (eexists; split; reflexivity).
  destruct (output cfg !! "suffix") as [sfx|]; [|eexists; split; reflexivity].
  destruct (output cfg !! "format") as [fmt|]; [|eexists; split; reflexivity].
  discriminate H.
Qed.

(** X5. The skip is decided from the output block alone: when the file at
    the base-format path exists the method returns it, whatever the
    compression and preprocessing blocks hold, and neither runs the engine
    nor touches the file system. *)
Theorem X5_skip_reads_only_the_output_block (cfg : config) (file : Path) (w : world) :
  output_conforms cfg = true ->
  is_Some (fs w !! base_path float_repr cfg file) ->
  _process_single_file float_repr engine cfg file w
  = (Ret (Some (base_path float_repr cfg file)),
     World (fs w)
           (log w ++ [Info_processing file; Info_skipping (base_path float_repr cfg file)])%list
           (calls w)).
Proof. intros Ho Hk. exact (process_single_file_skip float_repr engine cfg file w Ho Hk). Qed.

(** X6. With compression enabled, a codec or a bitrate that is not a string
    makes [_process_single_file] raise [TypeError] when it joins the
    command for the log; the engine is not run. *)
Theorem X6_non_string_codec_or_bitrate (cfg : config) (file : Path) (w : world)
        (codec bitrate : scalar) :
  output_conforms cfg = true ->
  chain_conforms cfg = true ->
  fs w !! base_path float_repr cfg file = None ->
  truthy (option_of (compression cfg) "enabled") = true ->
  has (compression cfg) "format" = true ->
  compression cfg !! "codec" = Some codec ->
  compression cfg !! "bitrate" = Some bitrate ->
  has_str (compression cfg) "codec" && has_str (compression cfg) "bitrate" = false ->
  exists what,
    _process_single_file float_repr engine cfg file w
    = (Raise (TypeError what), World (fs w) (log w ++ [Info_processing file])%list (calls w)).
Proof.
  intros Ho Hch Hk Hen Hf Hc Hb Hs.
  apply (build_filter_chain_Compile float_repr) in Hch.
  unfold output_conforms, has_str, has in Ho. rewrite !andb_true_iff in Ho.
  destruct Ho as [[Hd Hsf] Hfm]. destruct w as [t l c].
  unfold base_path, filename, output_directory, option_of, has, has_str in *.
  unfold _process_single_file, getitem, lift, exists_, logger, Path_of.
  destruct (output cfg !! "directory") as [[| | | |d]|] eqn:Ed; try discriminate Hd.
  destruct (output cfg !! "suffix") as [sfx|] eqn:Es; [|discriminate Hsf].
  destruct (output cfg !! "format") as [fmt|] eqn:Ef; [|discriminate Hfm].
  destruct (compression cfg !! "enabled") as [en|] eqn:Een; [|discriminate Hen].
  destruct (compression cfg !! "format") as [cf|] eqn:Ecf; [|discriminate Hf].
  cbv [default from_option id fs] in Hk, Hen.
  cbv [default from_option id mbind M_bind mret M_ret fs log calls logged].
  rewrite Hk, Hch, Hen, Hc, Hb in *.
  destruct (Py.equal cf fmt); destruct (String.eqb (Compile float_repr cfg) "").
  all: cbn [negb app str_items mbind result_bind Py.bind fs log calls].
  all: unfold try_except.
  all: destruct codec as [| | | |codec]; cbn [str_items mbind result_bind Py.bind];
       try (eexists; reflexivity).
  all: destruct bitrate as [| | | |bitrate]; cbn [str_items mbind result_bind Py.bind];
       try (eexists; reflexivity).
  all: discriminate Hs.
Qed.

(** X10. When compression is disabled, or compresses to the base format, a
    file the engine has processed and written is skipped by the next call:
    the same path is returned and the engine is not run again. *)
Theorem X10_second_call_skips_when_formats_agree (cfg : config) (file : Path) (w : world) fs' :
  conforms cfg = true ->
  truthy (option_of (compression cfg) "enabled") = false
  \/ Py.equal (option_of (compression cfg) "format") (option_of (output cfg) "format") = true ->
  fs w !! base_path float_repr cfg file = None ->
  engine (fs w) (command float_repr cfg file) = Exited 0 fs' ->
  is_Some (fs' !! output_path float_repr cfg file) ->
  let first := _process_single_file float_repr engine cfg file w in
  let second := _process_single_file float_repr engine cfg file (snd first) in
  fst first = Ret (Some (output_path float_repr cfg file))
  /\ fst second = Ret (Some (output_path float_repr cfg file))
  /\ calls (snd second) = calls (snd first)
  /\ fs (snd second) = fs (snd first).
Proof.
  intros Hc Hsame Hk He Hout first second.
  assert (Hp : output_path float_repr cfg file = base_path float_repr cfg file).
  { unfold output_path, base_path, output_format.
    destruct Hsame as [-> | ->]; [reflexivity|]. by rewrite andb_false_r. }
  assert (Ho : output_conforms cfg = true).
  { unfold conforms in Hc. rewrite !andb_true_iff in Hc. tauto. }
  subst first second.
  rewrite (process_single_file_run float_repr engine cfg file w Hc Hk), He.
  cbn [finished Z.eqb fst snd].
  rewrite (process_single_file_skip float_repr engine cfg file); [|exact Ho|].
  - unfold skipped. rewrite Hp. repeat split; reflexivity.
  - cbn [fs]. by rewrite <- Hp.
Qed.

(** X8. A non-zero exit status of the engine is logged as an error that
    names the file, and the method returns [None]; the call is recorded and
    the file system is the one the engine left. *)
Theorem X8_nonzero_exit_gives_None (cfg : config) (file : Path) (w : world) rc fs' :
  conforms cfg = true ->
  fs w !! base_path float_repr cfg file = None ->
  engine (fs w) (command float_repr cfg file) = Exited rc fs' ->
  rc <> 0%Z ->
  _process_single_file float_repr engine cfg file w
  = (Ret None,
     World fs'
           (log w ++ [Info_processing file; Info_running (command float_repr cfg file);
                      Error_processing file
                        (CalledProcessError rc (command float_repr cfg file))])%list
           (calls w ++ [command float_repr cfg file])%list).
Proof.
  intros Hc Hk He Hrc. rewrite (process_single_file_run float_repr engine cfg file w Hc Hk), He.
  unfold finished. destruct (Z.eqb_spec rc 0); [contradiction|reflexivity].
Qed.

(** X9. An engine that cannot be started makes the method raise [OSError],
    which is not a [SubprocessError]: the command is logged and recorded,
    no error naming the file is logged. *)
Theorem X9_launch_failure_raises (cfg : config) (file : Path) (w : world) errno :
  conforms cfg = true ->
  fs w !! base_path float_repr cfg file = None ->
  engine (fs w) (command float_repr cfg file) = Not_started errno ->
  _process_single_file float_repr engine cfg file w
  = (Raise (OSError errno),
     World (fs w)
           (log w ++ [Info_processing file; Info_running (command float_repr cfg file)])%list
           (calls w ++ [command float_repr cfg file])%list)
  /\ is_SubprocessError (OSError errno) = false.
Proof.
  intros Hc Hk He. rewrite (process_single_file_run float_repr engine cfg file w Hc Hk), He.
  split; reflexivity.
Qed.

End MoreDriverFacts.

(** ** Start-up and [main] *)

Section StartUpFacts.

Context (float_repr : float -> string).
Context (engine : gmap (list string) kind -> list string -> outcome).

Lemma load_config_here (config_path : string) (s : session) :
  here (snd (load_config config_path s)) = here s.
Proof.
  unfold load_config, try_catch, notify, mbind, Proc_bind, mret, Proc_ret.
  destruct (open_r (fs (here s)) config_path) as [errno|p].
  - cbn. destruct (errno =? 2)%Z; reflexivity.
  - destruct (documents s !! p); reflexivity.
Qed.

(** X13. [_check_dependencies] returns when [ffmpeg -version] exits with
    status 0, ends the program with [sys.exit(1)] when it exits with
    another status or is not found ([ENOENT]), and lets any other failure
    to start it through as an uncaught [OSError]. *)
Theorem X13_check_dependencies_outcomes (s : session) :
  let version := ["ffmpeg"; "-version"] in
  match engine (fs (here s)) version with
  | Exited rc fs' =>
      if (rc =? 0)%Z then
        _check_dependencies engine s
        = (Done tt, Session (World fs' (log (here s)) (calls (here s) ++ [version])%list)
                            (notices s ++ [Info_ffmpeg_installed])%list (documents s))
      else
        _check_dependencies engine s
        = (Halted (SystemExit 1),
           Session (World fs' (log (here s)) (calls (here s) ++ [version])%list)
                   (notices s ++ [Error_ffmpeg_not_installed])%list (documents s))
  | Not_started errno =>
      if (errno =? 2)%Z then
        _check_dependencies engine s
        = (Halted (SystemExit 1),
           Session (World (fs (here s)) (log (here s)) (calls (here s) ++ [version])%list)
                   (notices s ++ [Error_ffmpeg_not_installed])%list (documents s))
      else
        _check_dependencies engine s
        = (Halted (Uncaught (OSError errno)),
           Session (World (fs (here s)) (log (here s)) (calls (here s) ++ [version])%list)
                   (notices s) (documents s))
  end.
Proof.
  intros version. subst version.
  unfold _check_dependencies, try_catch, in_world, subprocess_run, notify, sys_exit,
    mbind, Proc_bind.
  destruct (engine (fs (here s)) ["ffmpeg"; "-version"]) as [rc fs'|errno].
  - destruct (rc =? 0)%Z; reflexivity.
  - cbn. destruct (errno =? 2)%Z; reflexivity.
Qed.

Lemma makedirs_from_subseteq (t : gmap (list string) kind) (seen : Path) (rest : list string) :
  t ⊆ fst (makedirs_from t seen rest).
Proof.
  revert t seen. induction rest as [|c rest IH]; intros t seen; cbn [makedirs_from]; [done|].
  destruct (t !! (seen ++ [c])%list) as [[|]|] eqn:Hq; [done|apply IH|].
  etrans; [|apply IH]. by apply insert_subseteq.
Qed.

Lemma walk_mono (t t' : gmap (list string) kind) (seen : Path) (rest : list string) (k : kind) :
  t ⊆ t' -> walk t seen rest = inr k -> walk t' seen rest = inr k.
Proof.
  intros Hsub. revert seen. induction rest as [|c rest IH]; intros seen; cbn [walk]; [done|].
  destruct (t !! (seen ++ [c])%list) as [[|]|] eqn:Hq; [| |discriminate].
  - rewrite (lookup_weaken _ _ _ _ Hq Hsub). done.
  - rewrite (lookup_weaken _ _ _ _ Hq Hsub). apply IH.
Qed.

Lemma makedirs_from_walk (t : gmap (list string) kind) (seen : Path) (rest : list string) :
  snd (makedirs_from t seen rest) = None ->
  walk (fst (makedirs_from t seen rest)) seen rest = inr Dir.
Proof.
  revert t seen. induction rest as [|c rest IH]; intros t seen; cbn [makedirs_from walk]; [done|].
  destruct (t !! (seen ++ [c])%list) as [[|]|] eqn:Hq; [discriminate| |]; intros Hok.
  - rewrite (lookup_weaken _ _ _ _ Hq (makedirs_from_subseteq t _ rest)). by apply IH.
  - assert (Hi : <[(seen ++ [c])%list := Dir]> t !! (seen ++ [c])%list = Some Dir)
      by apply lookup_insert_eq.
    rewrite (lookup_weaken _ _ _ _ Hi (makedirs_from_subseteq _ _ rest)). by apply IH.
Qed.

(** X18. When [os.makedirs] succeeds on the output directory, the directory
    exists afterwards and every entry that existed before is unchanged. *)
Theorem X18_makedirs_keeps_and_creates (path : string) (s s' : session) :
  os_makedirs (PyStr path) s = (Done tt, s') ->
  fs (here s) ⊆ fs (here s')
  /\ stat (fs (here s')) (of_string path) = inr Dir
  /\ log (here s') = log (here s) /\ calls (here s') = calls (here s)
  /\ notices s' = notices s /\ documents s' = documents s.
Proof.
  unfold os_makedirs. destruct (String.eqb path ""); [discriminate|].
  unfold stat. destruct (of_string path) as [|r rest].
  - intros [= <-]. done.
  - destruct (String.eqb r "/").
    + pose proof (makedirs_from_subseteq (fs (here s)) ["/"] rest) as Hsub.
      pose proof (makedirs_from_walk (fs (here s)) ["/"] rest) as Hw.
      destruct (makedirs_from (fs (here s)) ["/"] rest) as [t' [errno|]]; [discriminate|].
      intros [= <-]. cbn [here fs log calls notices documents fst snd] in *.
      repeat split; auto.
    + pose proof (makedirs_from_subseteq (fs (here s)) [] (r :: rest)) as Hsub.
      pose proof (makedirs_from_walk (fs (here s)) [] (r :: rest)) as Hw.
      destruct (makedirs_from (fs (here s)) [] (r :: rest)) as [t' [errno|]]; [discriminate|].
      intros [= <-]. cbn [here fs log calls notices documents fst snd] in *.
      repeat split; auto.
Qed.

Lemma os_makedirs_keeps (v : scalar) (s : session) :
  let s' := snd (os_makedirs v s) in
  log (here s') = log (here s) /\ calls (here s') = calls (here s)
  /\ notices s' = notices s /\ documents s' = documents s.
Proof.
  unfold os_makedirs. destruct v as [| | | |path]; try done.
  destruct (String.eqb path ""); [done|].
  destruct (match of_string path with
            | [] => (fs (here s), None)
            | r :: rest => if String.eqb r "/" then makedirs_from (fs (here s)) ["/"] rest
                           else makedirs_from (fs (here s)) [] (r :: rest)
            end) as [t' [errno|]]; done.
Qed.

(** X15. [load_config] falls back to the default configuration, with a
    warning, exactly when opening the file fails with [ENOENT]. *)
Theorem X15_defaults_only_when_file_missing (config_path : string) (s : session) :
  load_config config_path s
  = (Done default_config,
     Session (here s) (notices s ++ [Warning_config_not_found config_path])%list (documents s))
  <-> open_r (fs (here s)) config_path = inl 2%Z.
Proof.
  unfold load_config, try_catch, notify, mbind, Proc_bind, mret, Proc_ret.
  destruct (open_r (fs (here s)) config_path) as [errno|p].
  - cbn. destruct (Z.eqb_spec errno 2) as [->|Hne]; split; try done.
    intros [= ->]. contradiction.
  - destruct (documents s !! p); split; try discriminate.
    intros [= _ H]. apply app_inv_head in H. discriminate H.
Qed.

Lemma walk_file_lookup (t : gmap (list string) kind) (seen : Path) (rest : list string) :
  walk t seen rest = inr File -> t !! (seen ++ rest)%list = Some File.
Proof.
  revert seen. induction rest as [|c rest IH]; intros seen; cbn [walk]; [discriminate|].
  destruct (t !! (seen ++ [c])%list) as [[|]|] eqn:Hq; [| |discriminate].
  - destruct rest; [|discriminate]. intros _. exact Hq.
  - intros H. apply IH in H. by rewrite <- app_assoc in H.
Qed.

Lemma walk_insert_last (t : gmap (list string) kind) (seen : Path) (rest : list string) (c : string) :
  walk t seen rest = inr Dir ->
  walk (<[(seen ++ rest ++ [c])%list := File]> t) seen (rest ++ [c]) = inr File.
Proof.
  revert seen. induction rest as [|d rest IH]; intros seen; cbn [walk app].
  - intros _. by rewrite lookup_insert_eq.
  - destruct (t !! (seen ++ [d])%list) as [[|]|] eqn:Hq; [destruct rest; discriminate| |discriminate].
    intros H. rewrite lookup_insert_ne.
    + rewrite Hq. specialize (IH (seen ++ [d])%list H).
      rewrite <- app_assoc in IH. exact IH.
    + intros Heq. apply (f_equal List.length) in Heq.
      rewrite !length_app in Heq. cbn in Heq. rewrite length_app in Heq. cbn in Heq. lia.
Qed.

Lemma stat_file_lookup (t : gmap (list string) kind) (p : Path) :
  stat t p = inr File -> t !! p = Some File.
Proof.
  unfold stat. destruct p as [|r rest]; [discriminate|].
  destruct (String.eqb_spec r "/") as [->|_]; intros H; apply walk_file_lookup in H; exact H.
Qed.

Lemma walk_create (t : gmap (list string) kind) (seen q : Path) :
  q <> [] -> walk t seen (removelast q) = inr Dir ->
  walk (<[(seen ++ q)%list := File]> t) seen q = inr File.
Proof.
  intros Hq. destruct (exists_last Hq) as (front & c & ->).
  rewrite List.removelast_last. apply walk_insert_last.
Qed.

(** Once [open(path, 'w')] has succeeded, the path is a regular file. *)
Lemma open_w_stat (t : gmap (list string) kind) (path : string) (p : Path) :
  open_w t path = inr p -> p = of_string path /\ stat (<[p := File]> t) p = inr File.
Proof.
  unfold open_w. destruct (String.eqb path ""); [discriminate|].
  destruct (stat t (of_string path)) as [errno|[|]] eqn:Hs; [| |discriminate].
  - destruct (stat t (removelast (of_string path))) as [errno'|[|]] eqn:Hp; try discriminate.
    intros [= <-]. split; [reflexivity|].
    destruct (of_string path) as [|r rest] eqn:Hq; [discriminate Hs|].
    unfold stat in *. destruct (String.eqb r "/") eqn:Hr.
    + destruct rest as [|c rest]; [discriminate Hs|].
      change (removelast (r :: c :: rest)) with (r :: removelast (c :: rest)) in Hp.
      cbv beta iota in Hp. rewrite Hr in Hp.
      apply String.eqb_eq in Hr as ->.
      apply (walk_create t ["/"] (c :: rest)); [discriminate|exact Hp].
    + apply (walk_create t [] (r :: rest)); [discriminate|].
      destruct rest as [|c rest]; [reflexivity|].
      change (removelast (r :: c :: rest)) with (r :: removelast (c :: rest)) in Hp |- *.
      cbv beta iota in Hp. rewrite Hr in Hp. exact Hp.
  - intros [= <-]. split; [reflexivity|].
    rewrite insert_id; [exact Hs|]. by apply stat_file_lookup.
Qed.

(** X16. After [generate_config_file] has written a path, [load_config]
    reads the default configuration from it, whatever the path held
    before. *)
Theorem X16_generate_then_load (path : string) (s s1 : session) :
  generate_config_file path s = (Done tt, s1) ->
  load_config path s1
  = (Done default_config,
     Session (here s1) (notices s1 ++ [Info_configuration_loaded path])%list (documents s1))
  /\ notices s1 = (notices s ++ [Info_generated path])%list
  /\ log (here s1) = log (here s) /\ calls (here s1) = calls (here s).
Proof.
  unfold generate_config_file, notify.
  destruct (open_w (fs (here s)) path) as [errno|p] eqn:Hw; [discriminate|].
  pose proof Hw as Hw'. apply open_w_stat in Hw' as [-> Hst]. cbv beta. intros [= <-].
  cbn [here notices documents fs log calls]. split; [|done].
  unfold load_config, try_catch, open_r, notify, mbind, Proc_bind, mret, Proc_ret.
  cbn [here notices documents fs log calls].
  unfold open_w in Hw. destruct (String.eqb path ""); [discriminate|].
  rewrite Hst, lookup_insert_eq. reflexivity.
Qed.

Lemma check_dependencies_halts (s : session) :
  (forall t fs', engine t ["ffmpeg"; "-version"] <> Exited 0 fs') ->
  let r := _check_dependencies engine s in
  (exists h, fst r = Halted h)
  /\ log (here (snd r)) = log (here s)
  /\ calls (here (snd r)) = (calls (here s) ++ [["ffmpeg"; "-version"]])%list.
Proof.
  intros Hno r. subst r.
  unfold _check_dependencies, try_catch, in_world, subprocess_run, notify, sys_exit,
    mbind, Proc_bind.
  destruct (engine (fs (here s)) ["ffmpeg"; "-version"]) as [rc fs'|errno] eqn:He.
  - destruct (Z.eqb_spec rc 0) as [->|Hrc]; [by apply Hno in He|]. cbn. eauto.
  - cbn. destruct (errno =? 2)%Z; cbn; eauto.
Qed.

(** The driver's log and calls after the start-up, when the engine never
    answers [ffmpeg -version] with status 0. *)
Lemma AudioPreprocessor_without_engine (config_path : string) (s : session) :
  (forall t fs', engine t ["ffmpeg"; "-version"] <> Exited 0 fs') ->
  let r := AudioPreprocessor engine config_path s in
  (exists h, fst r = Halted h)
  /\ log (here (snd r)) = log (here s)
  /\ (calls (here (snd r)) = calls (here s)
      \/ calls (here (snd r)) = (calls (here s) ++ [["ffmpeg"; "-version"]])%list).
Proof.
  intros Hno r. subst r. unfold AudioPreprocessor, mbind, Proc_bind.
  pose proof (load_config_here config_path s) as Hl.
  destruct (load_config config_path s) as [[cfg|h] s1]; cbn [snd fst] in *;
    [|rewrite Hl; eauto].
  unfold setup, mbind, Proc_bind, in_world, lift.
  destruct (getitem (output cfg) "directory") as [directory|e]; cbn [fst snd here];
    [|rewrite Hl; eauto].
  pose proof (os_makedirs_keeps directory (Session (here s1) (notices s1) (documents s1)))
    as (Hlog & Hcalls & _ & _).
  destruct (os_makedirs directory (Session (here s1) (notices s1) (documents s1)))
    as [[[]|h] s2]; cbn [fst snd here log calls] in *;
    [|rewrite Hlog, Hcalls, Hl; eauto].
  destruct (check_dependencies_halts s2 Hno) as ([h Hh] & Hlog' & Hcalls').
  destruct (_check_dependencies engine s2) as [[[]|h'] s3]; [discriminate Hh|].
  cbn [fst snd] in *. rewrite Hlog', Hcalls', Hlog, Hcalls, Hl. eauto.
Qed.

Lemma generate_config_file_keeps (path : string) (s : session) :
  let s' := snd (generate_config_file path s) in
  log (here s') = log (here s) /\ calls (here s') = calls (here s).
Proof.
  unfold generate_config_file, notify.
  destruct (open_w (fs (here s)) path); done.
Qed.

(** X14. When [ffmpeg -version] never exits with status 0, [main] processes
    nothing: the driver logs nothing, the engine is asked at most for its
    version, and [main] only returns normally after [--generate-config]
    has written the configuration file and the input is not there, in the
    state the writing left. *)
Theorem X14_missing_engine_is_fatal (input config_path : string) (generate_config : bool)
        (s : session) :
  (forall t fs', engine t ["ffmpeg"; "-version"] <> Exited 0 fs') ->
  let r := main float_repr engine input config_path generate_config s in
  log (here (snd r)) = log (here s)
  /\ (calls (here (snd r)) = calls (here s)
      \/ calls (here (snd r)) = (calls (here s) ++ [["ffmpeg"; "-version"]])%list)
  /\ (fst r = Done tt ->
      generate_config = true
      /\ generate_config_file config_path s = (Done tt, snd r)
      /\ os_path_exists input (snd r) = (Done false, snd r)
      /\ calls (here (snd r)) = calls (here s)).
Proof.
  intros Hno r.
  set (P := fun r : ending unit * session =>
              log (here (snd r)) = log (here s)
              /\ (calls (here (snd r)) = calls (here s)
                  \/ calls (here (snd r)) = (calls (here s) ++ [["ffmpeg"; "-version"]])%list)
              /\ (fst r = Done tt ->
                  generate_config = true
                  /\ generate_config_file config_path s = (Done tt, snd r)
                  /\ os_path_exists input (snd r) = (Done false, snd r)
                  /\ calls (here (snd r)) = calls (here s))).
  change (P r). subst r.
  assert (Hstart : forall s1 : session,
             log (here s1) = log (here s) -> calls (here s1) = calls (here s) ->
             P ((processor ← AudioPreprocessor engine config_path;
                 in_world (process_audio_files float_repr engine processor input)) s1)).
  { intros s1 Hlog Hcalls. unfold mbind, Proc_bind.
    destruct (AudioPreprocessor_without_engine config_path s1 Hno) as ([h Hh] & Hl & Hc).
    destruct (AudioPreprocessor engine config_path s1) as [[cfg|h'] s2]; [discriminate Hh|].
    unfold P. cbn [fst snd] in *. rewrite Hl, Hlog, <- Hcalls.
    split; [done|]. split; [exact Hc|discriminate]. }
  unfold main. unfold mbind at 1, Proc_bind at 1.
  destruct generate_config.
  - unfold mbind at 1, Proc_bind at 1.
    pose proof (generate_config_file_keeps config_path s) as [Hlog Hcalls].
    destruct (generate_config_file config_path s) as [[[]|h] s1]; cbn [fst snd] in *.
    + unfold os_path_exists.
      destruct (negb (String.eqb input "") && _) eqn:Hex.
      * by apply Hstart.
      * unfold P. cbn [fst snd mret Proc_ret]. unfold os_path_exists. rewrite Hex. auto 10.
    + unfold P. cbn [fst snd]. split; [done|]. split; [auto|discriminate].
  - cbn [mret Proc_ret]. destruct (Hstart s eq_refl eq_refl) as (H1 & H2 & H3).
    unfold P. split; [exact H1|]. split; [exact H2|]. exact H3.
Qed.
(** X17. [main] with [--generate-config] and an input that does not exist
    writes the configuration file and returns: no directory is made and
    the engine is not asked for its version. *)
Theorem X17_generate_only (input config_path : string) (s : session) (p : Path) :
  open_w (fs (here s)) config_path = inr p ->
  (input = "" \/ exists errno, stat (<[p := File]> (fs (here s))) (of_string input) = inl errno) ->
  main float_repr engine input config_path true s
  = (Done tt,
     Session (World (<[p := File]> (fs (here s))) (log (here s)) (calls (here s)))
             (notices s ++ [Info_generated config_path])%list
             (<[p := default_config]> (documents s))).
Proof.
  intros Hw Hin. unfold main, mbind, Proc_bind, generate_config_file, notify, os_path_exists.
  rewrite Hw. cbn [here fs]. destruct Hin as [-> | [errno ->]]; [reflexivity|].
  rewrite andb_false_r. reflexivity.
Qed.

(** X19. Without a configuration file, and with the default output directory
    in place and a working engine, [main] processes the input with the
    default configuration. *)
Theorem X19_defaults_without_configuration_file (input config_path : string) (s : session) fs' :
  open_r (fs (here s)) config_path = inl 2%Z ->
  fs (here s) !! ["processed_audio"] = Some Dir ->
  engine (fs (here s)) ["ffmpeg"; "-version"] = Exited 0 fs' ->
  main float_repr engine input config_path false s
  = in_world (process_audio_files float_repr engine default_config input)
      (Session (World fs' (log (here s)) (calls (here s) ++ [["ffmpeg"; "-version"]])%list)
               (notices s ++ [Warning_config_not_found config_path; Info_ffmpeg_installed])%list
               (documents s)).
Proof.
  intros Ho Hd He.
  assert (Hload : load_config config_path s
                  = (Done default_config,
                     Session (here s) (notices s ++ [Warning_config_not_found config_path])%list
                             (documents s))).
  { unfold load_config, try_catch. rewrite Ho. reflexivity. }
  assert (Hdir : getitem (output default_config) "directory" = Ret (PyStr "processed_audio"))
    by reflexivity.
  assert (Hmk : forall n, os_makedirs (PyStr "processed_audio") (Session (here s) n (documents s))
                          = (Done tt, Session (here s) n (documents s))).
  { intros n. unfold os_makedirs.
    change (of_string "processed_audio") with ["processed_audio"].
    cbn [String.eqb Ascii.eqb Bool.eqb makedirs_from app here]. rewrite Hd.
    destruct (here s); reflexivity. }
  unfold main, AudioPreprocessor, setup. unfold mbind, Proc_bind, mret, Proc_ret.
  rewrite Hload. unfold in_world, lift. rewrite Hdir. cbn [here notices documents].
  rewrite Hmk. unfold _check_dependencies, try_catch, mbind, Proc_bind, in_world, subprocess_run.
  cbn [here notices documents]. rewrite He.
  cbn [Z.eqb notify here notices documents log calls]. rewrite <- app_assoc. reflexivity.
Qed.

End StartUpFacts.

(** ** The filter-chain compiler on documents of any shape *)

Lemma document_stage_option_has (doc : Document.value) (stage key : string) :
  Document.has (Document.stage_block doc stage) key = true ->
  Document.stage_option doc stage key
  = Ret (Document.option_of (Document.stage_block doc stage) key).
Proof.
  unfold Document.has, Document.stage_block, Document.option_of, Document.stage_option.
  destruct doc as [x|l|items|h t s]; try discriminate.
  cbn [Document.entry Document.getitem].
  destruct (Document.lookup_str items "preprocessing") as [p|]; [|discriminate].
  cbn [default from_option id mbind result_bind Py.bind].
  destruct p as [x|l|pitems|h t s]; try discriminate.
  cbn [Document.entry Document.getitem].
  destruct (Document.lookup_str pitems stage) as [b|]; [|discriminate].
  cbn [default from_option id mbind result_bind Py.bind].
  destruct b as [x|l|bitems|h t s]; try discriminate.
  cbn [Document.entry Document.getitem].
  destruct (Document.lookup_str bitems key) as [v|]; [|discriminate].
  reflexivity.
Qed.

Lemma document_stage_option_fails (doc : Document.value) (stage key : string) :
  Document.has (Document.stage_block doc stage) key = false ->
  exists e,
    Document.stage_option doc stage key = Raise e
    /\ Document.is_KeyError e || Document.is_TypeError e = true
    /\ (Document.is_mapping doc = true ->
        Document.mapping_if_set doc "preprocessing" = true ->
        Document.mapping_if_set (Document.option_of doc "preprocessing") stage = true ->
        Document.is_KeyError e = true).
Proof.
  unfold Document.has, Document.stage_block, Document.option_of, Document.stage_option,
    Document.mapping_if_set.
  destruct doc as [x|l|items|h t s];
    try (intros _; eexists; split; [reflexivity|split; [reflexivity|discriminate]]).
  cbn [Document.entry Document.getitem].
  destruct (Document.lookup_str items "preprocessing") as [p|];
    [|intros _; eexists; split; [reflexivity|split; reflexivity]].
  cbn [default from_option id mbind result_bind Py.bind].
  destruct p as [x|l|pitems|h t s];
    try (intros _; eexists; split; [reflexivity|split; [reflexivity|discriminate]]).
  cbn [Document.entry Document.getitem].
  destruct (Document.lookup_str pitems stage) as [b|];
    [|intros _; eexists; split; [reflexivity|split; reflexivity]].
  cbn [default from_option id mbind result_bind Py.bind].
  destruct b as [x|l|bitems|h t s];
    try (intros _; eexists; split; [reflexivity|split; [reflexivity|discriminate]]).
  cbn [Document.entry Document.getitem].
  destruct (Document.lookup_str bitems key) as [v|]; [discriminate|].
  intros _; eexists; split; [reflexivity|split; reflexivity].
Qed.

Lemma document_get_strength_map (strength : Document.value) :
  Document.hashable strength = true ->
  Document.get strength_map strength "0.4" = Ret (Document.reduction_factor strength).
Proof.
  intros Hh. unfold Document.get. rewrite Hh.
  destruct strength as [x|l|items|h t s]; try discriminate; try reflexivity.
  f_equal. unfold Document.reduction_factor, Document.equal_str.
  destruct x as [| | | |s]; try reflexivity.
  unfold Py.get, strength_map. cbn [Py.equal].
  destruct (String.eqb_spec s "low") as [->|Hl]; [reflexivity|].
  rewrite lookup_insert_ne by congruence.
  destruct (String.eqb_spec s "medium") as [->|Hm]; [reflexivity|].
  rewrite lookup_insert_ne by congruence.
  destruct (String.eqb_spec s "high") as [->|Hh']; [reflexivity|].
  rewrite lookup_insert_ne by congruence. reflexivity.
Qed.


(** Rewrites a branch of [_build_filter_chain] with the tests made so far. *)
Ltac settle_branch :=
  unfold Document.outcome, Document.chain_conforms, Document.strength_hashable,
    Document.mappings, Document.Compile, stage_order;
  cbn [forallb flat_map];
  unfold Document.stage_conforms, Document.enabled_filters, Document.stage_filters;
  cbn [forallb stage_keys String.eqb Ascii.eqb Bool.eqb];
  unfold Document.is_enabled, Document.noise_reduction_stage, Document.normalization_stage,
    Document.compression_stage, Document.preset_bands;
  repeat match goal with H : _ = true |- _ => rewrite !H | H : _ = false |- _ => rewrite !H end;
  cbn [andb forallb app];
  rewrite ?andb_false_r.

(** A branch that raised [e]. *)
Ltac raised Hk :=
  settle_branch;
  split; [reflexivity|split; [first [reflexivity|assumption]|]];
  let Hm := fresh "Hm" in
  intros Hm; rewrite ?andb_true_iff in Hm; destruct_and?;
  first [discriminate | apply Hk; assumption | reflexivity].

(** The computation a chain of binds starts with. *)
Ltac chain_head t :=
  lazymatch t with
  | mbind _ ?m => chain_head m
  | Py.bind ?m _ => chain_head m
  | _ => t
  end.

(** One step of [_build_filter_chain] on a document. *)
Ltac chain_step doc :=
  lazymatch goal with
  | |- Document.outcome _ _ _ ?X =>
      let h := chain_head X in
      lazymatch h with
      | Document.stage_option _ ?stage ?key =>
          let e := fresh "e" in
          let He := fresh "He" in
          let Hk := fresh "Hk" in
          destruct (Document.has (Document.stage_block doc stage) key) eqn:?;
          [ rewrite (document_stage_option_has doc stage key) by assumption;
            cbn [mbind result_bind Py.bind]
          | destruct (document_stage_option_fails doc stage key) as (e & -> & He & Hk);
            [assumption|];
            cbn [mbind result_bind Py.bind]; raised Hk ]
      | if Document.truthy ?v then _ else _ =>
          destruct (Document.truthy v) eqn:?; cbn [mbind result_bind Py.bind]
      | if Document.equal_str ?v ?s then _ else _ =>
          destruct (Document.equal_str v s) eqn:?; cbn [mbind result_bind Py.bind]
      | Document.get strength_map ?v _ =>
          destruct (Document.hashable v) eqn:?;
          [ rewrite (document_get_strength_map v) by assumption;
            cbn [mbind result_bind Py.bind]
          | unfold Document.get;
            lazymatch goal with H : Document.hashable v = false |- _ => rewrite H end;
            cbn [mbind result_bind Py.bind];
            settle_branch;
            split; [reflexivity|split; [reflexivity|]];
            let Hm := fresh "Hm" in
            intros Hm; rewrite ?andb_true_iff in Hm; destruct_and?; discriminate ]
      end
  end.

Section DocumentFacts.

Context (float_repr : float -> string).
Context (container_str : Document.value -> string).

Lemma document_build_outcome (doc : Document.value) :
  Document.outcome float_repr container_str doc
    (Document._build_filter_chain float_repr container_str doc).
Proof.
  unfold Document._build_filter_chain.
  repeat chain_step doc.
  all: cbn [Py.append app]; settle_branch.
  all: split; reflexivity.
Qed.

End DocumentFacts.

Lemma lookup_set_str_eq (items : list (Document.value * Document.value)) (k : string)
      (x : Document.value) :
  Document.lookup_str (Document.set_str items k x) k = Some x.
Proof.
  induction items as [|[key v] items IH]; cbn.
  - by rewrite String.eqb_refl.
  - destruct key as [[| | | |s]| | |]; cbn; try exact IH.
    destruct (String.eqb s k) eqn:E; cbn; rewrite E; [reflexivity|exact IH].
Qed.

Lemma lookup_set_str_ne (items : list (Document.value * Document.value)) (k k' : string)
      (x : Document.value) :
  k <> k' ->
  Document.lookup_str (Document.set_str items k x) k' = Document.lookup_str items k'.
Proof.
  intros Hk. induction items as [|[key v] items IH]; cbn.
  - destruct (String.eqb_spec k k'); [contradiction|reflexivity].
  - destruct key as [[| | | |s]| | |]; cbn; try exact IH.
    destruct (String.eqb_spec s k) as [->|Hs]; cbn.
    + destruct (String.eqb_spec k k'); [contradiction|reflexivity].
    + rewrite IH. reflexivity.
Qed.

(** The blocks on the way to an enabled noise reduction are mappings. *)
Lemma enabled_noise_reduction (doc : Document.value) :
  Document.is_enabled doc "noise_reduction" = true ->
  exists items pitems bitems,
    doc = Document.PyDict items
    /\ Document.lookup_str items "preprocessing" = Some (Document.PyDict pitems)
    /\ Document.lookup_str pitems "noise_reduction" = Some (Document.PyDict bitems).
Proof.
  unfold Document.is_enabled, Document.stage_block, Document.option_of.
  destruct doc as [x|l|items|h t s]; try discriminate.
  cbn [Document.entry].
  destruct (Document.lookup_str items "preprocessing") as [p|] eqn:Hp; [|discriminate].
  cbn [default from_option id].
  destruct p as [x|l|pitems|h t s]; try discriminate.
  cbn [Document.entry].
  destruct (Document.lookup_str pitems "noise_reduction") as [b|] eqn:Hb; [|discriminate].
  cbn [default from_option id].
  destruct b as [x|l|bitems|h t s]; try discriminate.
  intros _. exists items, pitems, bitems. repeat split; assumption.
Qed.

Lemma stage_option_with_strength (doc v : Document.value) (stage key : string) :
  Document.is_enabled doc "noise_reduction" = true ->
  Document.stage_option (Document.with_strength doc v) stage key
  = if String.eqb stage "noise_reduction" && String.eqb key "strength"
    then Ret v else Document.stage_option doc stage key.
Proof.
  intros Hen. destruct (enabled_noise_reduction doc Hen) as (items & pitems & bitems & -> & Hp & Hb).
  unfold Document.with_strength, Document.stage_block, Document.option_of, Document.stage_option.
  cbn [Document.entry Document.setitem Document.getitem].
  rewrite Hp. cbn [default from_option id Document.entry Document.setitem].
  rewrite Hb. cbn [default from_option id Document.entry Document.setitem].
  rewrite lookup_set_str_eq. cbn [mbind result_bind Py.bind Document.getitem].
  destruct (String.eqb_spec stage "noise_reduction") as [->|Hs]; cbn [andb].
  - rewrite lookup_set_str_eq, Hb. cbn [mbind result_bind Py.bind Document.getitem].
    destruct (String.eqb_spec key "strength") as [->|Hk].
    + rewrite lookup_set_str_eq. reflexivity.
    + rewrite lookup_set_str_ne by congruence. reflexivity.
  - rewrite lookup_set_str_ne by congruence. reflexivity.
Qed.

(** One step along [_build_filter_chain] on a document that is known to
    have raised. *)
Ltac raise_step H :=
  lazymatch type of H with
  | ?X = _ =>
      let h := chain_head X in
      lazymatch h with
      | Document.stage_option ?doc ?stage ?key =>
          destruct (Document.stage_option doc stage key);
          cbn [mbind result_bind Py.bind] in H |- *
      | if Document.truthy ?v then _ else _ =>
          destruct (Document.truthy v); cbn [mbind result_bind Py.bind] in H |- *
      | if Document.equal_str ?v ?s then _ else _ =>
          destruct (Document.equal_str v s); cbn [mbind result_bind Py.bind] in H |- *
      end
  end.

Section StrengthFacts.

Context (float_repr : float -> string).
Context (container_str : Document.value -> string).

Lemma enabled_has_enabled (doc : Document.value) (stage : string) :
  Document.is_enabled doc stage = true ->
  Document.has (Document.stage_block doc stage) "enabled" = true.
Proof.
  unfold Document.is_enabled, Document.has, Document.option_of.
  destruct (Document.entry (Document.stage_block doc stage) "enabled"); [reflexivity|discriminate].
Qed.

(** Brings [_build_filter_chain] on a document with the strength set to
    the point where the strength has been looked up. *)
Ltac past_strength doc v Hen Hv :=
  unfold Document._build_filter_chain;
  rewrite !(stage_option_with_strength doc v) by assumption;
  cbn [String.eqb Ascii.eqb Bool.eqb andb];
  rewrite (document_stage_option_has doc "noise_reduction" "enabled")
    by (by apply enabled_has_enabled);
  cbn [mbind result_bind Py.bind];
  rewrite Hen;
  cbn [mbind result_bind Py.bind];
  rewrite (document_get_strength_map v Hv);
  cbn [mbind result_bind Py.bind].

Lemma document_build_same_factor (doc v v' : Document.value) :
  Document.is_enabled doc "noise_reduction" = true ->
  Document.hashable v = true ->
  Document.hashable v' = true ->
  Document.reduction_factor v = Document.reduction_factor v' ->
  Document._build_filter_chain float_repr container_str (Document.with_strength doc v)
  = Document._build_filter_chain float_repr container_str (Document.with_strength doc v').
Proof.
  intros Hen Hv Hv' Hf. pose proof Hen as Hen'. unfold Document.is_enabled in Hen'.
  past_strength doc v Hen' Hv. past_strength doc v' Hen' Hv'.
  rewrite Hf. reflexivity.
Qed.

Lemma document_build_raise (doc v v' : Document.value) (e : exn) :
  Document.is_enabled doc "noise_reduction" = true ->
  Document.hashable v = true ->
  Document.hashable v' = true ->
  Document._build_filter_chain float_repr container_str (Document.with_strength doc v)
  = Raise e ->
  Document._build_filter_chain float_repr container_str (Document.with_strength doc v')
  = Raise e.
Proof.
  intros Hen Hv Hv'. pose proof Hen as Hen'. unfold Document.is_enabled in Hen'.
  past_strength doc v Hen' Hv. past_strength doc v' Hen' Hv'.
  intros H. repeat raise_step H.
  all: first [discriminate H | exact H].
Qed.

Lemma document_build_unhashable (doc strength : Document.value) :
  Document.is_enabled doc "noise_reduction" = true ->
  Document.entry (Document.stage_block doc "noise_reduction") "strength" = Some strength ->
  Document.hashable strength = false ->
  Document._build_filter_chain float_repr container_str doc
  = Raise (TypeError "unhashable type").
Proof.
  intros Hen Hs Hh. pose proof Hen as Hen'. unfold Document.is_enabled in Hen'.
  unfold Document._build_filter_chain.
  rewrite (document_stage_option_has doc "noise_reduction" "enabled")
    by (by apply enabled_has_enabled).
  cbn [mbind result_bind Py.bind]. rewrite Hen'.
  rewrite (document_stage_option_has doc "noise_reduction" "strength")
    by (unfold Document.has; by rewrite Hs).
  cbn [mbind result_bind Py.bind].
  unfold Document.option_of. rewrite Hs. cbn [default from_option id].
  unfold Document.get. rewrite Hh. reflexivity.
Qed.

Lemma document_build_unset (doc : Document.value) :
  Document.is_enabled doc "noise_reduction" = true ->
  Document.entry (Document.stage_block doc "noise_reduction") "strength" = None ->
  Document._build_filter_chain float_repr container_str doc = Raise (KeyError "strength").
Proof.
  intros Hen Hs. pose proof Hen as Hen'. unfold Document.is_enabled in Hen'.
  unfold Document._build_filter_chain.
  rewrite (document_stage_option_has doc "noise_reduction" "enabled")
    by (by apply enabled_has_enabled).
  cbn [mbind result_bind Py.bind]. rewrite Hen'.
  destruct (enabled_noise_reduction doc Hen) as (items & pitems & bitems & -> & Hp & Hb).
  unfold Document.stage_option, Document.stage_block, Document.option_of in Hs |- *.
  cbn [Document.entry Document.getitem] in Hs |- *. rewrite Hp in Hs |- *.
  cbn [default from_option id mbind result_bind Py.bind Document.entry Document.getitem]
    in Hs |- *.
  rewrite Hb in Hs |- *.
  cbn [default from_option id mbind result_bind Py.bind Document.entry Document.getitem]
    in Hs |- *.
  rewrite Hs. reflexivity.
Qed.

End StrengthFacts.

Section DocumentTheorems.

Context (float_repr : float -> string).
Context (container_str : Document.value -> string).

(** C7 (amended). When the noise reduction is enabled, its strength is
    read by subscript and looked up in a table, which hashes it.  A
    strength that is set and can be hashed gives the stage
    ["afftdn=nr=<factor>:nf=-25"] with factor 0.2 for low, 0.4 for medium,
    0.6 for high and 0.4 for every other such value, the null value
    included: the result depends on the strength through the factor only,
    "unknown" gives what "medium" gives, and a failure never depends on
    which of these values the strength is.  A strength that is a list or a
    mapping raises [TypeError], and one that is not set [KeyError]. *)
Theorem C7_strength_mapping (doc : Document.value) :
  Document.is_enabled doc "noise_reduction" = true ->
  (forall strength,
      Document.entry (Document.stage_block doc "noise_reduction") "strength" = Some strength ->
      Document.hashable strength = true ->
      Document.chain_conforms doc = true ->
      Document._build_filter_chain float_repr container_str doc
      = Ret (Py.join ","
               (("afftdn=nr=" ++ Document.reduction_factor strength ++ ":nf=-25")
                  :: flat_map (Document.enabled_filters float_repr container_str doc)
                              ["normalization"; "compression"; "eq"])))
  /\ (forall strength,
         Document.entry (Document.stage_block doc "noise_reduction") "strength"
         = Some strength ->
         Document.hashable strength = false ->
         exists what,
           Document._build_filter_chain float_repr container_str doc = Raise (TypeError what))
  /\ (Document.entry (Document.stage_block doc "noise_reduction") "strength" = None ->
      Document._build_filter_chain float_repr container_str doc = Raise (KeyError "strength"))
  /\ Document.reduction_factor (Document.Scalar (PyStr "low")) = "0.2"
  /\ Document.reduction_factor (Document.Scalar (PyStr "medium")) = "0.4"
  /\ Document.reduction_factor (Document.Scalar (PyStr "high")) = "0.6"
  /\ (forall v, Document.hashable v = true ->
                v <> Document.Scalar (PyStr "low") ->
                v <> Document.Scalar (PyStr "medium") ->
                v <> Document.Scalar (PyStr "high") ->
                Document.reduction_factor v = "0.4")
  /\ (forall v v', Document.hashable v = true -> Document.hashable v' = true ->
                   Document.reduction_factor v = Document.reduction_factor v' ->
                   Document._build_filter_chain float_repr container_str
                     (Document.with_strength doc v)
                   = Document._build_filter_chain float_repr container_str
                       (Document.with_strength doc v'))
  /\ Document._build_filter_chain float_repr container_str
       (Document.with_strength doc (Document.Scalar (PyStr "unknown")))
     = Document._build_filter_chain float_repr container_str
         (Document.with_strength doc (Document.Scalar (PyStr "medium")))
  /\ (forall v v' e, Document.hashable v = true -> Document.hashable v' = true ->
                     Document._build_filter_chain float_repr container_str
                       (Document.with_strength doc v) = Raise e ->
                     Document._build_filter_chain float_repr container_str
                       (Document.with_strength doc v') = Raise e).
Proof.
  intros Hen. split.
  { intros strength Hs Hh Hch.
    pose proof (document_build_outcome float_repr container_str doc) as Ho.
    assert (Hsh : Document.strength_hashable doc = true).
    { unfold Document.strength_hashable, Document.option_of. by rewrite Hen, Hs. }
    destruct (Document._build_filter_chain float_repr container_str doc) as [s|e];
      cbn [Document.outcome] in Ho.
    - destruct Ho as [_ ->]. unfold Document.Compile, stage_order. cbn [flat_map].
      unfold Document.enabled_filters at 1. rewrite Hen.
      unfold Document.stage_filters at 1. cbn [String.eqb Ascii.eqb Bool.eqb].
      unfold Document.noise_reduction_stage, Document.option_of. rewrite Hs. reflexivity.
    - destruct Ho as [Ho _]. by rewrite Hch, Hsh in Ho. }
  split.
  { intros strength Hs Hh. eexists.
    exact (document_build_unhashable float_repr container_str doc strength Hen Hs Hh). }
  split.
  { intros Hs. exact (document_build_unset float_repr container_str doc Hen Hs). }
  repeat split; try reflexivity.
  - intros v _ Hl Hm Hhi. unfold Document.reduction_factor, Document.equal_str.
    destruct v as [[| | | |s]|l|items|h t x]; try reflexivity. cbn [Py.equal].
    destruct (String.eqb_spec s "low"); [congruence|].
    destruct (String.eqb_spec s "medium"); [congruence|].
    destruct (String.eqb_spec s "high"); [congruence|reflexivity].
  - intros v v'. by apply document_build_same_factor.
  - by apply document_build_same_factor.
  - intros v v' e. by apply document_build_raise.
Qed.


Lemma lookup_str_of_items {V} (leaf : V -> Document.value) (l : list (string * V))
      (k : string) :
  Document.lookup_str (map (fun '(k, v) => (Document.Scalar (PyStr k), leaf v)) l) k
  = leaf <$> (list_to_map l : gmap string V) !! k.
Proof.
  induction l as [|[k' v] l IH]; cbn.
  - by rewrite lookup_empty.
  - destruct (String.eqb_spec k' k) as [->|Hk].
    + by rewrite lookup_insert_eq.
    + rewrite lookup_insert_ne by done. exact IH.
Qed.

Lemma getitem_of_block {V} (leaf : V -> Document.value) (block : gmap string V) (k : string) :
  Document.getitem (Document.of_block leaf block) k
  = match getitem block k with Ret v => Ret (leaf v) | Raise e => Raise e end.
Proof.
  unfold Document.of_block, Document.getitem, getitem.
  rewrite lookup_str_of_items, list_to_map_to_list.
  destruct (block !! k); reflexivity.
Qed.

Lemma stage_option_of_config (cfg : config) (stage key : string) :
  Document.stage_option (Document.of_config cfg) stage key
  = match stage_option cfg stage key with
    | Ret v => Ret (Document.Scalar v)
    | Raise e => Raise e
    end.
Proof.
  unfold Document.stage_option, stage_option, Document.of_config.
  cbn [Document.getitem Document.lookup_str String.eqb Ascii.eqb Bool.eqb
         mbind result_bind Py.bind].
  rewrite getitem_of_block.
  destruct (getitem (preprocessing cfg) stage) as [block|e];
    cbn [mbind result_bind Py.bind]; [|reflexivity].
  apply getitem_of_block.
Qed.

(** On a configuration, the method on documents is the method on
    configurations. *)
Lemma build_filter_chain_of_config (cfg : config) :
  Document._build_filter_chain float_repr container_str (Document.of_config cfg)
  = _build_filter_chain float_repr cfg.
Proof.
  unfold Document._build_filter_chain, _build_filter_chain.
  rewrite !stage_option_of_config.
  repeat
    (lazymatch goal with
     | |- _ = ?R =>
         let h := chain_head R in
         lazymatch h with
         | stage_option ?c ?s ?k => destruct (stage_option c s k)
         | if Py.truthy ?v then _ else _ => destruct (Py.truthy v)
         | if Py.equal ?a ?b then _ else _ => destruct (Py.equal a b)
         end
     end;
     cbn [mbind result_bind Py.bind Document.truthy Document.get Document.hashable
            Document.equal_str Document.py_format]).
  all: reflexivity.
Qed.

End DocumentTheorems.

(** ** The further theorems at work on the samples *)

Lemma X2_disabled_options_not_read_witness :
  _build_filter_chain sample_repr (with_option default_config "eq" "preset" (PyInt 7))
  = _build_filter_chain sample_repr default_config.
Proof.
  apply (X2_disabled_options_not_read sample_repr default_config "eq" "preset" (PyInt 7)).
  - reflexivity.
  - discriminate.
Defined.

Lemma X3_when_the_chain_is_empty_witness :
  _build_filter_chain sample_repr custom_preset_config = Ret "".
Proof.
  apply (proj2 (X3_when_the_chain_is_empty sample_repr custom_preset_config eq_refl)).
  repeat split; try reflexivity. right. reflexivity.
Defined.

Lemma X4_unusable_output_block_witness :
  exists e,
    _process_single_file sample_repr ffmpeg_ok no_output_config ["rec"; "a.wav"]
      (World sample_fs [] [])
    = (Raise e, World sample_fs [] [])
    /\ is_SubprocessError e = false.
Proof.
  exact (X4_unusable_output_block sample_repr ffmpeg_ok no_output_config ["rec"; "a.wav"]
           (World sample_fs [] []) eq_refl).
Defined.

Lemma X5_skip_reads_only_the_output_block_witness :
  _process_single_file sample_repr ffmpeg_ok output_only_config ["rec"; "a.wav"]
    (World skip_fs [] [])
  = (Ret (Some ["processed_audio"; "a_processed.wav"]),
     World skip_fs
           [Info_processing ["rec"; "a.wav"];
            Info_skipping ["processed_audio"; "a_processed.wav"]]
           []).
Proof.
  apply (X5_skip_reads_only_the_output_block sample_repr ffmpeg_ok output_only_config
           ["rec"; "a.wav"] (World skip_fs [] []) eq_refl).
  exists File. vm_compute. reflexivity.
Defined.

Lemma X6_non_string_codec_or_bitrate_witness :
  exists what,
    _process_single_file sample_repr ffmpeg_ok numeric_bitrate_config ["rec"; "a.wav"]
      (World sample_fs [] [])
    = (Raise (TypeError what), World sample_fs [Info_processing ["rec"; "a.wav"]] []).
Proof.
  apply (X6_non_string_codec_or_bitrate sample_repr ffmpeg_ok numeric_bitrate_config
           ["rec"; "a.wav"] (World sample_fs [] []) (PyStr "aac") (PyInt 128));
    vm_compute; reflexivity.
Defined.

Lemma X8_nonzero_exit_gives_None_witness :
  fst (_process_single_file sample_repr ffmpeg_fails default_config ["rec"; "a.wav"]
         (World sample_fs [] []))
  = Ret None.
Proof.
  rewrite (X8_nonzero_exit_gives_None sample_repr ffmpeg_fails default_config ["rec"; "a.wav"]
             (World sample_fs [] []) 1 sample_fs).
  - reflexivity.
  - reflexivity.
  - vm_compute. reflexivity.
  - reflexivity.
  - discriminate.
Defined.

Lemma X9_launch_failure_raises_witness :
  fst (_process_single_file sample_repr ffmpeg_missing default_config ["rec"; "a.wav"]
         (World sample_fs [] []))
  = Raise (OSError 24).
Proof.
  rewrite (proj1 (X9_launch_failure_raises sample_repr ffmpeg_missing default_config
                    ["rec"; "a.wav"] (World sample_fs [] []) 24 eq_refl eq_refl eq_refl)).
  reflexivity.
Defined.

Lemma X10_second_call_skips_when_formats_agree_witness :
  let first := _process_single_file sample_repr ffmpeg_ok uncompressed_config ["rec"; "a.wav"]
                 (World sample_fs [] []) in
  let second := _process_single_file sample_repr ffmpeg_ok uncompressed_config ["rec"; "a.wav"]
                  (snd first) in
  fst second = Ret (Some ["processed_audio"; "a_processed.wav"])
  /\ calls (snd second) = calls (snd first).
Proof.
  destruct (X10_second_call_skips_when_formats_agree sample_repr ffmpeg_ok uncompressed_config
              ["rec"; "a.wav"] (World sample_fs [] [])
              (<[ ["processed_audio"; "a_processed.wav"] := File ]> sample_fs))
    as (_ & H2 & H3 & _).
  - reflexivity.
  - left. reflexivity.
  - vm_compute. reflexivity.
  - vm_compute. reflexivity.
  - exists File. vm_compute. reflexivity.
  - split; [exact H2|exact H3].
Defined.

Lemma X12_raises_only_for_a_single_file_witness :
  fst (process_audio_files sample_repr ffmpeg_missing default_config "rec"
         (World sample_fs [] []))
  = Ret tt.
Proof.
  apply (X12_raises_only_for_a_single_file sample_repr ffmpeg_missing default_config "rec"
           (World sample_fs [] [])).
  vm_compute. discriminate.
Defined.

Lemma X14_missing_engine_is_fatal_witness :
  let r := main sample_repr ffmpeg_fails "rec" "audio_config.yaml" true sample_session in
  log (here (snd r)) = [] /\ calls (here (snd r)) = [["ffmpeg"; "-version"]]
  /\ fst r <> Done tt.
Proof.
  destruct (X14_missing_engine_is_fatal sample_repr ffmpeg_fails "rec" "audio_config.yaml" true
              sample_session) as (H1 & _ & H3).
  - intros t fs'. discriminate.
  - split; [exact H1|]. split; [vm_compute; reflexivity|].
    intros H. destruct (H3 H) as (_ & _ & Hex & _). vm_compute in Hex. discriminate Hex.
Defined.

Lemma X16_generate_then_load_witness :
  fst (load_config "audio_config.yaml"
         (snd (generate_config_file "audio_config.yaml" sample_session)))
  = Done default_config.
Proof.
  rewrite (proj1 (X16_generate_then_load "audio_config.yaml" sample_session
                    (snd (generate_config_file "audio_config.yaml" sample_session))
                    eq_refl)).
  reflexivity.
Defined.

Lemma X17_generate_only_witness :
  main sample_repr ffmpeg_ok "nowhere.wav" "audio_config.yaml" true sample_session
  = (Done tt,
     Session (World (<[ ["audio_config.yaml"] := File ]> sample_fs) [] [])
             [Info_generated "audio_config.yaml"]
             (<[ ["audio_config.yaml"] := default_config ]> ∅)).
Proof.
  apply (X17_generate_only sample_repr ffmpeg_ok "nowhere.wav" "audio_config.yaml"
           sample_session ["audio_config.yaml"]).
  - vm_compute. reflexivity.
  - right. exists 2%Z. vm_compute. reflexivity.
Defined.

Lemma X18_makedirs_keeps_and_creates_witness :
  let s' := snd (os_makedirs (PyStr "out/deep") sample_session) in
  fs (here sample_session) ⊆ fs (here s')
  /\ stat (fs (here s')) ["out"; "deep"] = inr Dir.
Proof.
  destruct (X18_makedirs_keeps_and_creates "out/deep" sample_session
              (snd (os_makedirs (PyStr "out/deep") sample_session)) eq_refl)
    as (H1 & H2 & _).
  split; [exact H1|exact H2].
Defined.

Lemma X19_defaults_without_configuration_file_witness :
  main sample_repr ffmpeg_installed "rec" "audio_config.yaml" false sample_session
  = in_world (process_audio_files sample_repr ffmpeg_installed default_config "rec")
      (Session (World sample_fs [] [["ffmpeg"; "-version"]])
               [Warning_config_not_found "audio_config.yaml"; Info_ffmpeg_installed] ∅).
Proof.
  apply (X19_defaults_without_configuration_file sample_repr ffmpeg_installed "rec"
           "audio_config.yaml" sample_session sample_fs).
  - vm_compute. reflexivity.
  - vm_compute. reflexivity.
  - vm_compute. reflexivity.
Defined.

(** A stage block that is null: the subscript raises [TypeError]. *)
Example null_stage_block_raises :
  Document._build_filter_chain sample_repr sample_container_str null_stage_document
  = Raise (TypeError "not subscriptable by a string").
Proof. reflexivity. Qed.

Lemma C7_strength_mapping_witness :
  Document._build_filter_chain sample_repr sample_container_str
    (strength_document (Document.Scalar PyNone))
  = Ret "afftdn=nr=0.4:nf=-25"
  /\ exists what,
       Document._build_filter_chain sample_repr sample_container_str list_strength_document
       = Raise (TypeError what).
Proof.
  split.
  - exact (proj1 (C7_strength_mapping sample_repr sample_container_str
                    (strength_document (Document.Scalar PyNone)) eq_refl)
             (Document.Scalar PyNone) eq_refl eq_refl eq_refl).
  - exact (proj1 (proj2 (C7_strength_mapping sample_repr sample_container_str
                           list_strength_document eq_refl))
             (Document.PyList [Document.Scalar (PyStr "low")]) eq_refl eq_refl).
Defined.
